(** * Image/client-id reconciliation tool ([app.py]): model and properties

    A shallow embedding of the matching core of [app.py]:
    - the string helpers the code calls ([str.zfill], [str.split],
      [str.replace], [re.match] on the pattern [(\d+)]);
    - the filename identifier extractor;
    - the directory matcher, the fallback merge and the report writer, as
      computations in a state-and-exception monad over an abstract
      operating system (file system and spreadsheet reader/writer);
    - a small in-memory file system instantiating the interface, on which
      the functions are run on concrete inputs.

    Python [str] values are modelled by [string] (code points below 256;
    in that range the regular expression class [\d] is exactly ['0'..'9']),
    Python [int] by [Z], [dict] by [gmap], [set] by [gset], [None]-or-value
    by [option].

    A spreadsheet cell is text or an integer; on these [astype(str)] is
    [str] in every pandas release.  Blank cells (missing values) and
    floating-point cells are outside the model: what [astype(str)] makes of
    a missing value depends on the pandas release (the text [nan] before
    3.0, a missing value since), and every statement about tables is a
    statement about tables whose cells are text or integers. *)

From Stdlib Require Import Ascii String ZArith Lia.
From stdpp Require Import gmap strings list fin_maps pretty.

Local Open Scope string_scope.
Local Open Scope list_scope.

(** ** Python string primitives *)

Module PyStr.

(** ['0' * n] *)
Fixpoint zeros (n : nat) : string :=
  match n with
  | O => EmptyString
  | S n' => String "0"%char (zeros n')
  end.

Definition is_sign (c : ascii) : bool :=
  (Ascii.eqb c "+"%char || Ascii.eqb c "-"%char)%bool.

(** [s.zfill(width)]: strings at least [width] long are returned as they
    are; shorter ones get zeros on the left, after a leading sign. *)
Definition zfill (width : nat) (s : string) : string :=
  if Nat.leb width (String.length s) then s
  else
    let fill := width - String.length s in
    match s with
    | String c rest =>
        if is_sign c then String c (zeros fill +:+ rest)
        else zeros fill +:+ s
    | EmptyString => zeros fill
    end.

(** [s.rjust(width, '0')], the sign-blind padding that [Series.str.zfill]
    performed element-wise in older pandas releases. *)
Definition rjust0 (width : nat) (s : string) : string :=
  if Nat.leb width (String.length s) then s
  else zeros (width - String.length s) +:+ s.

(** [s.split(sep)] for a one-character separator: never the empty list. *)
Fixpoint split (sep : ascii) (s : string) : list string :=
  match s with
  | EmptyString => [EmptyString]
  | String c s' =>
      if Ascii.eqb c sep then EmptyString :: split sep s'
      else match split sep s' with
           | p :: ps => String c p :: ps
           | [] => [String c EmptyString]
           end
  end.

Definition is_digit (c : ascii) : bool :=
  (Nat.leb 48 (nat_of_ascii c) && Nat.leb (nat_of_ascii c) 57)%bool.

(** The longest prefix of [s] made of digits. *)
Fixpoint digit_run (s : string) : string :=
  match s with
  | String c s' => if is_digit c then String c (digit_run s') else EmptyString
  | EmptyString => EmptyString
  end.

(** [re.match(r'(\d+)', s)]: the match object is represented by its
    group 1, the greedy non-empty run of digits at the start of [s];
    [None] when [s] does not start with a digit. *)
Definition re_match_digits (s : string) : option string :=
  match digit_run s with
  | EmptyString => None
  | run => Some run
  end.

(** [s.startswith(p)] *)
Fixpoint startswith (p s : string) : bool :=
  match p, s with
  | EmptyString, _ => true
  | String a p', String b s' => (Ascii.eqb a b && startswith p' s')%bool
  | String _ _, EmptyString => false
  end.

(** [s[n:]] *)
Fixpoint drop (n : nat) (s : string) : string :=
  match n, s with
  | O, _ => s
  | S n', String _ s' => drop n' s'
  | S _, EmptyString => EmptyString
  end.

(** [s.replace(old, new)] for a non-empty [old]: every non-overlapping
    occurrence, scanning from the left.  [fuel] bounds the scan and is
    the length of [s] plus one at the top call. *)
Fixpoint replace_go (fuel : nat) (old new s : string) : string :=
  match fuel with
  | O => s
  | S fuel' =>
      match s with
      | EmptyString => EmptyString
      | String c s' =>
          if startswith old s
          then new +:+ replace_go fuel' old new (drop (String.length old) s)
          else String c (replace_go fuel' old new s')
      end
  end.

Definition replace (old new s : string) : string :=
  replace_go (S (String.length s)) old new s.

End PyStr.

(** ** Exceptions and results *)

Inductive exn :=
| KeyError (key : string)
| IndexError
| ValueError (msg : string)
| OSError (msg : string).

Inductive res (A : Type) :=
| Ok (a : A)
| Raise (e : exn).
Arguments Ok {A} a.
Arguments Raise {A} e.

(** [l[0]] *)
Definition list_getitem0 {A} (l : list A) : res A :=
  match l with
  | x :: _ => Ok x
  | [] => Raise IndexError
  end.

(** ** Filename identifier extractor *)

(** [extract_number_from_filename(file_name)]: [Ok None] is Python's
    [return None], [Raise] an exception leaving the function. *)
Definition extract_number_from_filename (file_name : string) : res (option string) :=
  match list_getitem0 (PyStr.split "_"%char file_name) with
  | Raise e => Raise e
  | Ok prefix =>
      match PyStr.re_match_digits prefix with
      | Some group1 => Ok (Some (PyStr.zfill 11 group1))
      | None => Ok None
      end
  end.


(** ** Tables (pandas [DataFrame]) *)

(** A spreadsheet cell holds text or an integer (blank and floating-point
    cells are outside the model, see the head of the file). *)
Inductive cell :=
| CStr (s : string)
| CInt (n : Z).

(** [str(x)] on a cell value. *)
Definition py_str (c : cell) : string :=
  match c with
  | CStr s => s
  | CInt n => pretty n
  end.

(** A table is the list of its labelled columns, in column order. *)
Record DataFrame := mkDF { df_cols : list (string * list cell) }.

(** [pd.DataFrame()] *)
Definition df_new : DataFrame := mkDF [].

(** [df.columns] *)
Definition df_columns (df : DataFrame) : list string := (df_cols df).*1.

(** [df.empty]: no column, or no row. *)
Definition df_empty (df : DataFrame) : bool :=
  match df_cols df with
  | [] => true
  | (_, col) :: _ => Nat.eqb (length col) 0
  end.

Fixpoint assoc_get {A} (name : string) (cols : list (string * A)) : option A :=
  match cols with
  | [] => None
  | (n, col) :: rest => if String.eqb n name then Some col else assoc_get name rest
  end.

Fixpoint assoc_set {A} (name : string) (col : A) (cols : list (string * A)) : list (string * A) :=
  match cols with
  | [] => [(name, col)]
  | (n, c) :: rest =>
      if String.eqb n name then (n, col) :: rest else (n, c) :: assoc_set name col rest
  end.

(** [df[name]] *)
Definition df_getitem (name : string) (df : DataFrame) : res (list cell) :=
  match assoc_get name (df_cols df) with
  | Some col => Ok col
  | None => Raise (KeyError name)
  end.

(** [df[name] = col]: replaces the column, or appends a new last column. *)
Definition df_setitem (name : string) (col : list cell) (df : DataFrame) : DataFrame :=
  mkDF (assoc_set name col (df_cols df)).

(** ** The outside world: events and the operating-system interface *)

Inductive ui_kind := StError | StWrite | StSuccess.

(** What a run does that is visible from outside, in order: messages
    shown to the user, the answers of the regular-file test on directory
    entries, and the calls that change the file system. *)
Inductive event :=
| EvUi (k : ui_kind) (msg : string)
| EvIsFile (path : string) (answer : bool)
| EvMkdir (path : string)
| EvCopy (src dst : string)
| EvToExcel (df : DataFrame) (path : string).

(** The library calls of [app.py] on a world of type [W].  Queries read
    the world; commands may change it and may raise. *)
Class OS (W : Type) := {
  os_path_exists : string → W → bool;
  os_path_isfile : string → W → bool;
  os_path_join : string → string → string;
  os_listdir : string → W → res (list string);
  (** [Path(p).mkdir(parents=True, exist_ok=True)] *)
  path_mkdir : string → W → res () * W;
  (** [shutil.copy(src, dst_dir)] *)
  shutil_copy : string → string → W → res () * W;
  pd_read_excel : string → W → res DataFrame;
  (** [df.to_excel(path, index=False)] *)
  df_to_excel : DataFrame → string → W → res () * W;
}.

Record state (W : Type) := mkState { world : W; trace : list event }.
Arguments mkState {W} world trace.
Arguments world {W} s.
Arguments trace {W} s.

(** ** The state-and-exception monad *)

Definition M (W A : Type) : Type := state W → res A * state W.

Global Instance M_ret {W} : MRet (M W) := λ A a s, (Ok a, s).

Global Instance M_bind {W} : MBind (M W) := λ A B f m s,
  match m s with
  | (Ok a, s') => f a s'
  | (Raise e, s') => (Raise e, s')
  end.

(** [raise e] *)
Definition raise {W A} (e : exn) : M W A := λ s, (Raise e, s).

(** A pure step that may raise. *)
Definition lift {W A} (r : res A) : M W A := λ s, (r, s).

(** [try: body  except Exception as e: handler(e)] *)
Definition try_except {W A} (body : M W A) (handler : exn → M W A) : M W A := λ s,
  match body s with
  | (Ok a, s') => (Ok a, s')
  | (Raise e, s') => handler e s'
  end.

Definition emit {W} (ev : event) : M W () := λ s,
  (Ok (), mkState (world s) (trace s ++ [ev])).

Definition query {W A} (f : W → A) : M W A := λ s, (Ok (f (world s)), s).

Definition command {W} (f : W → res () * W) : M W () := λ s,
  let '(r, w') := f (world s) in (r, mkState w' (trace s)).

(** ** Dictionaries *)

(** [d[k]] *)
Definition dict_getitem (d : gmap string Z) (k : string) : res Z :=
  match d !! k with
  | Some v => Ok v
  | None => Raise (KeyError k)
  end.

(** [d.get(k, dflt)] *)
Definition dict_get (d : gmap string Z) (k : string) (dflt : Z) : Z :=
  match d !! k with
  | Some v => v
  | None => dflt
  end.

(** [d[k] += n] *)
Definition dict_iadd (d : gmap string Z) (k : string) (n : Z) : res (gmap string Z) :=
  match dict_getitem d k with
  | Ok v => Ok (<[k := (v + n)%Z]> d)
  | Raise e => Raise e
  end.

(** [sum(d.values())] *)
Definition dict_sum (d : gmap string Z) : Z :=
  map_fold (λ _ v acc, (v + acc)%Z) 0%Z d.

(** [str(e)] for the message of [except Exception as e]. *)
Definition exn_str (e : exn) : string :=
  match e with
  | KeyError k => "'" +:+ k +:+ "'"
  | IndexError => "list index out of range"
  | ValueError msg => msg
  | OSError msg => msg
  end.

(** ** The program *)

(** [.astype(str).str.zfill(11)] on one cell of the [ClientID] column. *)
Definition normalize_id (x : cell) : cell := CStr (PyStr.zfill 11 (py_str x)).

Section Program.
Context {W : Type} `{!OS W}.

Definition st_error (msg : string) : M W () := emit (EvUi StError msg).
Definition st_write (msg : string) : M W () := emit (EvUi StWrite msg).
Definition st_success (msg : string) : M W () := emit (EvUi StSuccess msg).

Definition isfile (path : string) : M W bool := λ s,
  let answer := os_path_isfile path (world s) in
  (Ok answer, mkState (world s) (trace s ++ [EvIsFile path answer])).

Definition mkdir (path : string) : M W () :=
  emit (EvMkdir path);; command (path_mkdir path).

Definition copy (src dst : string) : M W () :=
  emit (EvCopy src dst);; command (shutil_copy src dst).

Definition to_excel (df : DataFrame) (path : string) : M W () :=
  emit (EvToExcel df path);; command (df_to_excel df path).

(** [read_client_ids_from_excel(excel_path)] *)
Definition read_client_ids_from_excel (excel_path : string)
  : M W (DataFrame * gset string) :=
  try_except
    (df ← (λ s, (pd_read_excel excel_path (world s), s)) : M W DataFrame;
     if negb (bool_decide ("ClientID" ∈ df_columns df))
     then raise (ValueError "Excel file must contain a 'ClientID' column.")
     else
       col ← lift (df_getitem "ClientID" df);
       let col' := normalize_id <$> col in
       let df' := df_setitem "ClientID" col' df in
       col'' ← lift (df_getitem "ClientID" df');
       mret (df', list_to_set (py_str <$> col'')))
    (λ e,
       st_error ("Error reading Excel file: " +:+ exn_str e);;
       mret (df_new, ∅)).

(** The body of the [for file_name in os.listdir(images_dir)] loop of
    [match_images_with_client_ids], run over the enumerated entries with
    the three accumulators of the function. *)
Fixpoint scan_entries (client_ids : gset string) (images_dir output_folder : string)
    (entries : list string) (matched_images mismatched_images : list string)
    (matched_image_count : gmap string Z)
  : M W (list string * list string * gmap string Z) :=
  match entries with
  | [] => mret (matched_images, mismatched_images, matched_image_count)
  | file_name :: rest =>
      let file_path := os_path_join images_dir file_name in
      is_file ← isfile file_path;
      if (is_file : bool) then
        number ← lift (extract_number_from_filename file_name);
        match (number : option string) with
        | Some number =>
            if bool_decide (number ∈ client_ids) then
              let matched_images := (matched_images ++ [file_name])%list in
              copy file_path output_folder;;
              matched_image_count ← lift (dict_iadd matched_image_count number 1);
              scan_entries client_ids images_dir output_folder rest
                matched_images mismatched_images matched_image_count
            else
              scan_entries client_ids images_dir output_folder rest
                matched_images (mismatched_images ++ [file_name])%list matched_image_count
        | None =>
            (* [None in client_ids] is false: the set holds strings only *)
            scan_entries client_ids images_dir output_folder rest
              matched_images (mismatched_images ++ [file_name])%list matched_image_count
        end
      else
        scan_entries client_ids images_dir output_folder rest
          matched_images mismatched_images matched_image_count
  end.

(** [match_images_with_client_ids(client_ids, images_dir, output_folder)] *)
Definition match_images_with_client_ids (client_ids : gset string)
    (images_dir output_folder : string)
  : M W (list string * list string * gmap string Z) :=
  found ← query (os_path_exists images_dir);
  if negb (found : bool) then
    st_error ("The directory " +:+ images_dir +:+ " does not exist. Please check the path.");;
    mret ([], [], ∅)
  else
    mkdir output_folder;;
    let matched_image_count := gset_to_gmap 0%Z client_ids in
    entries ← (λ s, (os_listdir images_dir (world s), s)) : M W (list string);
    scan_entries client_ids images_dir output_folder entries [] [] matched_image_count.

(** [matched_image_count.get(x, 0)] on a cell of the [ClientID] column:
    the keys of the tally are strings, so an integer cell is never found. *)
Definition count_of_cell (matched_image_count : gmap string Z) (x : cell) : Z :=
  match x with
  | CStr s => dict_get matched_image_count s 0
  | CInt _ => 0
  end.

(** [update_excel_with_status(excel_df, matched_image_count, output_excel_path)] *)
Definition update_excel_with_status (excel_df : DataFrame)
    (matched_image_count : gmap string Z) (output_excel_path : string) : M W () :=
  ids ← lift (df_getitem "ClientID" excel_df);
  let excel_df := df_setitem "Matched Images Count"
                    ((λ x, CInt (count_of_cell matched_image_count x)) <$> ids) excel_df in
  ids ← lift (df_getitem "ClientID" excel_df);
  let excel_df := df_setitem "Status"
                    ((λ x, CStr (if (0 <? count_of_cell matched_image_count x)%Z
                                 then "Matched" else "Mismatched")) <$> ids) excel_df in
  to_excel excel_df output_excel_path;;
  st_success ("Updated Excel file saved at " +:+ output_excel_path).

(** [{cid for cid in client_ids if matched_image_count[cid] == 0}], over
    the elements of [client_ids] in iteration order. *)
Fixpoint zero_count_ids (cids : list string) (matched_image_count : gmap string Z)
  : res (gset string) :=
  match cids with
  | [] => Ok ∅
  | cid :: rest =>
      match dict_getitem matched_image_count cid with
      | Raise e => Raise e
      | Ok n =>
          match zero_count_ids rest matched_image_count with
          | Raise e => Raise e
          | Ok u => Ok (if (n =? 0)%Z then {[cid]} ∪ u else u)
          end
      end
  end.

Definition unmatched_client_ids (client_ids : gset string)
    (matched_image_count : gmap string Z) : res (gset string) :=
  zero_count_ids (elements client_ids) matched_image_count.

(** [for cid, count in fallback.items(): matched_image_count[cid] += count] *)
Fixpoint merge_counts (items : list (string * Z)) (matched_image_count : gmap string Z)
  : res (gmap string Z) :=
  match items with
  | [] => Ok matched_image_count
  | (cid, count) :: rest =>
      match dict_iadd matched_image_count cid count with
      | Raise e => Raise e
      | Ok d => merge_counts rest d
      end
  end.

(** Truth value of the optional [fallback_images_dir] argument: [None]
    and the empty string are false. *)
Definition path_given (p : option string) : option string :=
  match p with
  | Some EmptyString => None
  | Some path => Some path
  | None => None
  end.

(** Lines 109-118 of [process_images]: the unmatched identifiers, the
    conditional second scan, and the merge into the primary tally. *)
Definition fallback_pass (client_ids : gset string) (matched_image_count : gmap string Z)
    (output_folder : string) (fallback_images_dir : option string)
  : M W (gmap string Z) :=
  unmatched ← lift (unmatched_client_ids client_ids matched_image_count);
  match path_given fallback_images_dir with
  | Some fallback_dir =>
      if negb (bool_decide (unmatched = ∅)) then
        st_write "Processing fallback directory for unmatched client IDs...";;
        '(_, _, fallback_matched_image_count) ←
          match_images_with_client_ids unmatched fallback_dir output_folder;
        lift (merge_counts (map_to_list fallback_matched_image_count) matched_image_count)
      else mret matched_image_count
  | None => mret matched_image_count
  end.

(** [excel_path.replace('.xlsx', '_updated.xlsx')] *)
Definition updated_path (excel_path : string) : string :=
  PyStr.replace ".xlsx" "_updated.xlsx" excel_path.

(** [process_images(excel_path, images_dir, output_folder, fallback_images_dir)];
    [None] is the bare [return]. *)
Definition process_images (excel_path images_dir output_folder : string)
    (fallback_images_dir : option string) : M W (option string) :=
  '(excel_df, client_ids) ← read_client_ids_from_excel excel_path;
  if (df_empty excel_df || bool_decide (client_ids = ∅))%bool then
    st_error "No valid client IDs found.";;
    mret None
  else
    '(matched_images, mismatched_images, matched_image_count) ←
      match_images_with_client_ids client_ids images_dir output_folder;
    matched_image_count ←
      fallback_pass client_ids matched_image_count output_folder fallback_images_dir;
    let updated_excel_path := updated_path excel_path in
    update_excel_with_status excel_df matched_image_count updated_excel_path;;
    st_write ("Matched and copied " +:+ pretty (length matched_images)
              +:+ " images from the primary directory.");;
    st_write ("Total mismatched images: " +:+ pretty (length mismatched_images));;
    st_write ("Total matched images: " +:+ pretty (dict_sum matched_image_count));;
    mret (Some updated_excel_path).

End Program.

(** ** An in-memory file system *)

Module MemFS.

(** A path names a regular file, a spreadsheet file with its table, or
    a directory with the names of its entries in enumeration order. *)
Inductive node :=
| File
| Sheet (df : DataFrame)
| Dir (names : list string).

Record fs := mkFs { nodes : gmap string node }.

Definition lookup_path (p : string) (w : fs) : option node := nodes w !! p.
Definition store (p : string) (n : node) (w : fs) : fs := mkFs (<[p := n]> (nodes w)).

(** [posixpath.join(a, b)] *)
Definition join (a b : string) : string :=
  if PyStr.startswith "/" b then b
  else if (String.eqb a EmptyString || String.eqb (PyStr.drop (String.length a - 1) a) "/")%bool
       then a +:+ b
       else a +:+ "/" +:+ b.

(** [posixpath.basename(p)] *)
Definition basename (p : string) : string :=
  List.last (PyStr.split "/"%char p) EmptyString.

Definition exists_ (p : string) (w : fs) : bool :=
  match lookup_path p w with Some _ => true | None => false end.

Definition isfile (p : string) (w : fs) : bool :=
  match lookup_path p w with
  | Some File | Some (Sheet _) => true
  | _ => false
  end.

Definition listdir (p : string) (w : fs) : res (list string) :=
  match lookup_path p w with
  | Some (Dir names) => Ok names
  | Some _ => Raise (OSError ("[Errno 20] Not a directory: '" +:+ p +:+ "'"))
  | None => Raise (OSError ("[Errno 2] No such file or directory: '" +:+ p +:+ "'"))
  end.

Definition mkdir (p : string) (w : fs) : res () * fs :=
  match lookup_path p w with
  | None => (Ok (), store p (Dir []) w)
  | Some (Dir _) => (Ok (), w)
  | Some _ => (Raise (OSError ("[Errno 17] File exists: '" +:+ p +:+ "'")), w)
  end.

Definition add_name (name : string) (names : list string) : list string :=
  if bool_decide (name ∈ names) then names else (names ++ [name])%list.

(** Copy into the directory [dst] under the source's base name; a
    destination that is not a directory is the target file itself. *)
Definition copy (src dst : string) (w : fs) : res () * fs :=
  match lookup_path src w with
  | None => (Raise (OSError ("[Errno 2] No such file or directory: '" +:+ src +:+ "'")), w)
  | Some (Dir _) => (Raise (OSError ("[Errno 21] Is a directory: '" +:+ src +:+ "'")), w)
  | Some content =>
      match lookup_path dst w with
      | Some (Dir names) =>
          let target := join dst (basename src) in
          if String.eqb target src
          then (Raise (OSError ("'" +:+ src +:+ "' and '" +:+ target +:+ "' are the same file")), w)
          else (Ok (), store target content (store dst (Dir (add_name (basename src) names)) w))
      | _ => (Ok (), store dst content w)
      end
  end.

Definition read_excel (p : string) (w : fs) : res DataFrame :=
  match lookup_path p w with
  | Some (Sheet df) => Ok df
  | Some _ => Raise (ValueError "Excel file format cannot be determined, you must specify an engine manually.")
  | None => Raise (OSError ("[Errno 2] No such file or directory: '" +:+ p +:+ "'"))
  end.

Definition to_excel (df : DataFrame) (p : string) (w : fs) : res () * fs :=
  match lookup_path p w with
  | Some (Dir _) => (Raise (OSError ("[Errno 21] Is a directory: '" +:+ p +:+ "'")), w)
  | _ => (Ok (), store p (Sheet df) w)
  end.

Global Instance mem_os : OS fs := {|
  os_path_exists := exists_;
  os_path_isfile := isfile;
  os_path_join := join;
  os_listdir := listdir;
  path_mkdir := mkdir;
  shutil_copy := copy;
  pd_read_excel := read_excel;
  df_to_excel := to_excel;
|}.

Definition of_list (l : list (string * node)) : fs := mkFs (list_to_map l).

(** Start a run in world [w] with nothing shown or done yet. *)
Definition start (w : fs) : state fs := mkState w [].

(** The result and the events of a run (the final file system dropped). *)
Definition observe {A} (r : res A * state fs) : res A * list event :=
  (r.1, trace r.2).

End MemFS.

(** *** The scenarios of the specification *)

Definition clients_table : DataFrame :=
  mkDF [("Name", [CStr "Ann"; CStr "Bob"]); ("ClientID", [CInt 1; CInt 22])].

Definition scenario1 : MemFS.fs :=
  MemFS.of_list
    [("clients.xlsx", MemFS.Sheet clients_table);
     ("imgs", MemFS.Dir ["1_a.jpg"; "22_b.jpg"; "99_c.jpg"; "thumbs"]);
     ("imgs/1_a.jpg", MemFS.File); ("imgs/22_b.jpg", MemFS.File);
     ("imgs/99_c.jpg", MemFS.File); ("imgs/thumbs", MemFS.Dir [])].

Definition scenario2 : MemFS.fs :=
  MemFS.of_list
    [("clients.xlsx", MemFS.Sheet clients_table);
     ("imgs", MemFS.Dir []);
     ("more", MemFS.Dir ["1_x.jpg"]); ("more/1_x.jpg", MemFS.File)].

(** A table with a single client, and one whose identifier column is missing. *)
Definition one_client_table : DataFrame :=
  mkDF [("ClientID", [CInt 1])].

Definition no_id_table : DataFrame :=
  mkDF [("Name", [CStr "Ann"]); ("Client", [CInt 1])].

Definition scenario3 : MemFS.fs :=
  MemFS.of_list
    [("one.xlsx", MemFS.Sheet one_client_table);
     ("bad.xlsx", MemFS.Sheet no_id_table);
     ("clients.xls", MemFS.Sheet one_client_table);
     ("notes.txt", MemFS.File);
     ("imgs", MemFS.Dir ["1_a.jpg"]); ("imgs/1_a.jpg", MemFS.File)].

(** A primary directory that matches one client and a fallback directory
    with files of both clients. *)
Definition scenario4 : MemFS.fs :=
  MemFS.of_list
    [("clients.xlsx", MemFS.Sheet clients_table);
     ("imgs", MemFS.Dir ["22_b.jpg"]); ("imgs/22_b.jpg", MemFS.File);
     ("more", MemFS.Dir ["1_x.jpg"; "22_y.jpg"]);
     ("more/1_x.jpg", MemFS.File); ("more/22_y.jpg", MemFS.File)].

(** ** The extractor as the specification words it *)

Module ExtractorSpec.

(** The ten decimal digits. *)
Definition decimal_digit (c : ascii) : bool :=
  existsb (Ascii.eqb c) ["0"; "1"; "2"; "3"; "4"; "5"; "6"; "7"; "8"; "9"]%char.

(** The portion of a name before its first underscore; the whole name
    when it has none. *)
Fixpoint before_underscore (name : string) : string :=
  match name with
  | EmptyString => EmptyString
  | String c rest =>
      if Ascii.eqb c "_"%char then EmptyString else String c (before_underscore rest)
  end.

(** The leading run of decimal digits of [s]. *)
Fixpoint leading_digits (s : string) : string :=
  match s with
  | EmptyString => EmptyString
  | String c rest =>
      if decimal_digit c then String c (leading_digits rest) else EmptyString
  end.

Definition starts_with_digit (s : string) : bool :=
  match s with
  | String c _ => decimal_digit c
  | EmptyString => false
  end.

(** [fill] characters ['0'] in front of [digits]. *)
Fixpoint zero_fill (fill : nat) (digits : string) : string :=
  match fill with
  | O => digits
  | S fill' => String "0"%char (zero_fill fill' digits)
  end.

(** Left-pad with zeros to [width]; never shortens. *)
Definition pad (width : nat) (digits : string) : string :=
  zero_fill (width - String.length digits) digits.

(** The identifier of a file name: absent unless the portion before the
    first underscore starts with a digit, else its leading digits padded
    to eleven characters. *)
Definition identifier (name : string) : option string :=
  let portion := before_underscore name in
  if starts_with_digit portion
  then Some (pad 11 (leading_digits portion))
  else None.

End ExtractorSpec.


(** The output tables written during a run. *)
Fixpoint tables_written (evs : list event) : list string :=
  match evs with
  | [] => []
  | EvToExcel _ path :: rest => path :: tables_written rest
  | _ :: rest => tables_written rest
  end.

(** The number of names in [matched] whose extracted identifier is [id]. *)
Definition id_of (file_name : string) : option string :=
  match extract_number_from_filename file_name with
  | Ok number => number
  | Raise _ => None
  end.

Definition matches_of (id : string) (matched : list string) : Z :=
  Z.of_nat (length (filter (λ file_name, id_of file_name = Some id) matched)).

(** The calls of [shutil.copy] made during a run, as (source, destination). *)
Fixpoint copies (evs : list event) : list (string * string) :=
  match evs with
  | [] => []
  | EvCopy src dst :: rest => (src, dst) :: copies rest
  | _ :: rest => copies rest
  end.

(** The messages shown to the user during a run. *)
Fixpoint messages (evs : list event) : list (ui_kind * string) :=
  match evs with
  | [] => []
  | EvUi k msg :: rest => (k, msg) :: messages rest
  | _ :: rest => messages rest
  end.

(** Every character of [s] is one of ['0'..'9']. *)
Fixpoint all_digits (s : string) : bool :=
  match s with
  | EmptyString => true
  | String c rest => (PyStr.is_digit c && all_digits rest)%bool
  end.

(** [old in s] *)
Fixpoint str_contains (old s : string) : bool :=
  (PyStr.startswith old s
   || match s with
      | EmptyString => false
      | String _ rest => str_contains old rest
      end)%bool.

(** The [Status] cell that the report writer computes for an identifier cell. *)
Definition status_of (matched_image_count : gmap string Z) (x : cell) : cell :=
  CStr (if (0 <? count_of_cell matched_image_count x)%Z then "Matched" else "Mismatched").

(** * Properties *)

(** ** Strings *)

Lemma length_zeros n : String.length (PyStr.zeros n) = n.
Proof. induction n as [|n IH]; simpl; [done | by rewrite IH]. Qed.

Lemma str_length_app (a b : string) :
  String.length (a +:+ b) = String.length a + String.length b.
Proof. induction a as [|c a IH]; simpl; [done | by rewrite IH]. Qed.

Lemma length_zfill_short (width : nat) (s : string) :
  (String.length s < width)%nat → String.length (PyStr.zfill width s) = width.
Proof.
  intros Hlt. unfold PyStr.zfill.
  destruct (Nat.leb_spec width (String.length s)) as [Hle | _]; [lia |].
  destruct s as [|c rest].
  - simpl. rewrite length_zeros. lia.
  - destruct (PyStr.is_sign c).
    + cbn [String.length] in *. rewrite str_length_app, length_zeros. lia.
    + rewrite str_length_app, length_zeros. lia.
Qed.

Lemma zfill_long (width : nat) (s : string) :
  (width ≤ String.length s)%nat → PyStr.zfill width s = s.
Proof.
  intros Hle. unfold PyStr.zfill.
  by destruct (Nat.leb_spec width (String.length s)); [| lia].
Qed.

Lemma zfill_idem (width : nat) (s : string) :
  PyStr.zfill width (PyStr.zfill width s) = PyStr.zfill width s.
Proof.
  destruct (Nat.le_gt_cases width (String.length s)) as [Hle | Hlt].
  - rewrite (zfill_long _ _ Hle). apply (zfill_long _ _ Hle).
  - apply zfill_long. rewrite length_zfill_short; lia.
Qed.

Lemma rjust0_idem (width : nat) (s : string) :
  PyStr.rjust0 width (PyStr.rjust0 width s) = PyStr.rjust0 width s.
Proof.
  unfold PyStr.rjust0 at 2 3.
  destruct (Nat.leb_spec width (String.length s)) as [Hle | Hlt].
  - unfold PyStr.rjust0. by destruct (Nat.leb_spec width (String.length s)); [| lia].
  - unfold PyStr.rjust0.
    rewrite str_length_app, length_zeros.
    by destruct (Nat.leb_spec width (width - String.length s + String.length s)); [| lia].
Qed.

Lemma app_cons (c : ascii) (a b : string) : String c a +:+ b = String c (a +:+ b).
Proof. reflexivity. Qed.

Lemma app_empty_r (s : string) : s +:+ EmptyString = s.
Proof. induction s as [|c s IH]; [done |]. by rewrite app_cons, IH. Qed.

Lemma drop_length (s : string) : PyStr.drop (String.length s) s = EmptyString.
Proof. induction s as [|c s IH]; simpl; done. Qed.

Lemma startswith_refl (a : string) : PyStr.startswith a a = true.
Proof.
  induction a as [|c a IH]; simpl; [done |].
  by rewrite Ascii.eqb_refl, IH.
Qed.

Lemma replace_go_empty fuel (old new : string) :
  PyStr.replace_go fuel old new EmptyString = EmptyString.
Proof. by destruct fuel. Qed.

(** When the only occurrence of [old] in [stem ++ old] is the final one,
    replacing rewrites just that suffix. *)
Lemma replace_go_suffix (old new : string) :
  old ≠ EmptyString →
  ∀ (stem : string) (fuel : nat),
    (String.length stem < fuel)%nat →
    (∀ i, (i < String.length stem)%nat →
          PyStr.startswith old (PyStr.drop i (stem +:+ old)) = false) →
    PyStr.replace_go fuel old new (stem +:+ old) = stem +:+ new.
Proof.
  intros Hold. induction stem as [|c stem IH]; intros fuel Hfuel Hocc.
  - destruct fuel as [|fuel]; [simpl in Hfuel; lia |].
    destruct old as [|a old]; [done |].
    change (EmptyString +:+ String a old) with (String a old).
    change (EmptyString +:+ new) with new.
    cbn [PyStr.replace_go]. rewrite startswith_refl.
    rewrite drop_length, replace_go_empty. apply app_empty_r.
  - destruct fuel as [|fuel]; [simpl in Hfuel; lia |].
    rewrite !app_cons. cbn [PyStr.replace_go].
    pose proof (Hocc 0%nat ltac:(simpl; lia)) as H0.
    rewrite app_cons in H0. cbn [PyStr.drop] in H0.
    rewrite H0. f_equal. apply IH; [simpl in Hfuel; lia |].
    intros i Hi. apply (Hocc (S i)). simpl. lia.
Qed.

(** For paths whose only [.xlsx] is the extension, the derived path is the
    stem followed by [_updated.xlsx]. *)
Lemma updated_path_xlsx (stem : string) :
  (∀ i, (i < String.length stem)%nat →
        PyStr.startswith ".xlsx" (PyStr.drop i (stem +:+ ".xlsx")) = false) →
  updated_path (stem +:+ ".xlsx") = stem +:+ "_updated.xlsx".
Proof.
  intros Hocc. unfold updated_path, PyStr.replace.
  apply replace_go_suffix; [done | | done].
  rewrite str_length_app. simpl. lia.
Qed.

(** ** The extractor *)

Lemma split_underscore_head (name : string) :
  ∃ pieces, PyStr.split "_"%char name = ExtractorSpec.before_underscore name :: pieces.
Proof.
  induction name as [|c name [pieces IH]]; simpl.
  - by exists [].
  - destruct (Ascii.eqb c "_"%char).
    + by eexists.
    + rewrite IH. by eexists.
Qed.

Lemma digit_not_sign (c : ascii) : PyStr.is_digit c = true → PyStr.is_sign c = false.
Proof.
  unfold PyStr.is_sign. intros Hd.
  destruct (Ascii.eqb_spec c "+"%char) as [-> | _]; [by vm_compute in Hd |].
  destruct (Ascii.eqb_spec c "-"%char) as [-> | _]; [by vm_compute in Hd | done].
Qed.

Lemma is_digit_decimal (c : ascii) : PyStr.is_digit c = ExtractorSpec.decimal_digit c.
Proof. destruct c as [[] [] [] [] [] [] [] []]; reflexivity. Qed.

Lemma digit_run_leading (s : string) : PyStr.digit_run s = ExtractorSpec.leading_digits s.
Proof.
  induction s as [|c s IH]; [done |].
  cbn [PyStr.digit_run ExtractorSpec.leading_digits].
  by rewrite is_digit_decimal, IH.
Qed.

Lemma zero_fill_zeros (n : nat) (s : string) :
  ExtractorSpec.zero_fill n s = PyStr.zeros n +:+ s.
Proof.
  induction n as [|n IH]; [done |].
  cbn [ExtractorSpec.zero_fill PyStr.zeros]. by rewrite app_cons, IH.
Qed.

Lemma pad_unfold (width : nat) (s : string) :
  ExtractorSpec.pad width s
  = if Nat.ltb (String.length s) width
    then PyStr.zeros (width - String.length s) +:+ s
    else s.
Proof.
  unfold ExtractorSpec.pad.
  destruct (Nat.ltb_spec (String.length s) width) as [Hlt | Hle].
  - apply zero_fill_zeros.
  - by replace (width - String.length s)%nat with 0%nat by lia.
Qed.

Lemma re_match_digits_spec (s : string) :
  PyStr.re_match_digits s =
    if ExtractorSpec.starts_with_digit s then Some (PyStr.digit_run s) else None.
Proof.
  unfold PyStr.re_match_digits. destruct s as [|c s]; simpl; [done |].
  rewrite <- is_digit_decimal. by destruct (PyStr.is_digit c).
Qed.

Lemma starts_with_digit_run (s : string) :
  ExtractorSpec.starts_with_digit s =
    match PyStr.digit_run s with EmptyString => false | String _ _ => true end.
Proof.
  destruct s as [|c s]; simpl; [done |].
  rewrite <- is_digit_decimal. by destruct (PyStr.is_digit c).
Qed.

Lemma zfill_digit_run (width : nat) (s : string) :
  PyStr.zfill width (PyStr.digit_run s) = ExtractorSpec.pad width (PyStr.digit_run s).
Proof.
  rewrite pad_unfold. unfold PyStr.zfill.
  destruct (Nat.leb_spec width (String.length (PyStr.digit_run s))) as [Hle | Hlt];
    destruct (Nat.ltb_spec (String.length (PyStr.digit_run s)) width) as [Hlt' | Hle'];
    try lia; try done.
  destruct s as [|c s]; simpl in *; [by rewrite app_empty_r |].
  destruct (PyStr.is_digit c) eqn:Hd; simpl in *; [| by rewrite app_empty_r].
  by rewrite (digit_not_sign c Hd).
Qed.

Lemma extract_number_from_filename_refines (file_name : string) :
  extract_number_from_filename file_name = Ok (ExtractorSpec.identifier file_name).
Proof.
  unfold extract_number_from_filename, ExtractorSpec.identifier.
  destruct (split_underscore_head file_name) as [pieces ->]. simpl.
  rewrite re_match_digits_spec, <- digit_run_leading.
  destruct (ExtractorSpec.starts_with_digit _); [| done].
  by rewrite zfill_digit_run.
Qed.

Lemma length_zero_fill (n : nat) (s : string) :
  String.length (ExtractorSpec.zero_fill n s) = (n + String.length s)%nat.
Proof. induction n as [|n IH]; [done |]. simpl. by rewrite IH. Qed.

(** C4: the extractor always returns (never raises); its result is the
    identifier of the specification: the leading decimal digits of the
    portion before the first underscore, with as many zeros in front as it
    takes to reach eleven characters, absent when that portion does not
    start with a digit.  A returned identifier has eleven characters, or
    the length of the digit run when that is longer; a run of eleven
    digits or more is returned as it is; and two names with the same
    leading digit run before the underscore get the same result. *)
Theorem extract_number_from_filename_correct (file_name other : string) :
  ExtractorSpec.leading_digits (ExtractorSpec.before_underscore other)
    = ExtractorSpec.leading_digits (ExtractorSpec.before_underscore file_name) →
  extract_number_from_filename file_name = Ok (ExtractorSpec.identifier file_name)
  ∧ extract_number_from_filename other = extract_number_from_filename file_name
  ∧ ((11 ≤ String.length
             (ExtractorSpec.leading_digits (ExtractorSpec.before_underscore file_name)))%nat →
     extract_number_from_filename file_name
       = Ok (Some (ExtractorSpec.leading_digits (ExtractorSpec.before_underscore file_name))))
  ∧ (∀ id, extract_number_from_filename file_name = Ok (Some id) →
           String.length id
           = Nat.max 11 (String.length
                           (ExtractorSpec.leading_digits
                              (ExtractorSpec.before_underscore file_name))))
  ∧ (ExtractorSpec.starts_with_digit (ExtractorSpec.before_underscore file_name) = false →
     extract_number_from_filename file_name = Ok None).
Proof.
  intros Hrun. split; [apply extract_number_from_filename_refines |].
  rewrite !extract_number_from_filename_refines. unfold ExtractorSpec.identifier.
  split_and!.
  - f_equal. rewrite !starts_with_digit_run, !digit_run_leading. by rewrite Hrun.
  - intros Hlen. f_equal. rewrite starts_with_digit_run, digit_run_leading.
    destruct (ExtractorSpec.leading_digits (ExtractorSpec.before_underscore file_name))
      as [|c run] eqn:E; [simpl in Hlen; lia |].
    f_equal. unfold ExtractorSpec.pad.
    by replace (11 - String.length (String c run))%nat with 0%nat by lia.
  - intros id.
    destruct (ExtractorSpec.starts_with_digit _); [| done]. intros [= <-].
    unfold ExtractorSpec.pad. rewrite length_zero_fill. lia.
  - by intros ->.
Qed.

Lemma extract_number_from_filename_correct_witness :
  extract_number_from_filename "22_b.jpg" = Ok (Some "00000000022")
  ∧ extract_number_from_filename "22.png" = extract_number_from_filename "22_b.jpg"
  ∧ String.length "00000000022" = 11%nat.
Proof.
  destruct (extract_number_from_filename_correct "22_b.jpg" "22.png" eq_refl)
    as (H1 & H2 & _ & H4 & _).
  split; [exact H1 |]. split; [exact H2 |]. exact (H4 "00000000022" H1).
Defined.

(** C5: padding an identifier to eleven characters with leading zeros is
    idempotent, as [str.zfill] on any string and as the normalisation of a
    cell of the identifier column. *)
Theorem normalization_idempotent (s : string) (x : cell) :
  PyStr.zfill 11 (PyStr.zfill 11 s) = PyStr.zfill 11 s
  ∧ normalize_id (normalize_id x) = normalize_id x.
Proof.
  split; [apply zfill_idem |].
  unfold normalize_id. simpl. by rewrite zfill_idem.
Qed.

(** C3: the derived output path is not always the input path with
    [_updated] put before the extension: every [.xlsx] in the path is
    rewritten, and a path without [.xlsx] is returned as it is, so that the
    output table is written over the input table. *)
Theorem updated_path_replaces_every_xlsx :
  updated_path "exports.xlsx.old/clients.xlsx" = "exports_updated.xlsx.old/clients_updated.xlsx"
  ∧ updated_path "clients.xls" = "clients.xls"
  ∧ updated_path "CLIENTS.XLSX" = "CLIENTS.XLSX"
  ∧ tables_written
      (MemFS.observe (process_images "clients.xls" "imgs" "out" None (MemFS.start scenario3))).2
    = ["clients.xls"].
Proof. repeat split; vm_compute; reflexivity. Qed.

(** ** Dictionaries *)

Lemma dict_iadd_ok (d d' : gmap string Z) (k : string) (n : Z) :
  dict_iadd d k n = Ok d' → ∃ v, d !! k = Some v ∧ d' = <[k := (v + n)%Z]> d.
Proof.
  unfold dict_iadd, dict_getitem. destruct (d !! k) as [v|]; [| done].
  intros [= <-]. by exists v.
Qed.

Lemma dict_sum_insert (d : gmap string Z) (k : string) (v v' : Z) :
  d !! k = Some v → dict_sum (<[k := v']> d) = (dict_sum d + (v' - v))%Z.
Proof.
  intros Hk. unfold dict_sum.
  rewrite <- (insert_delete_eq d k v') at 1.
  rewrite <- (insert_id d k v Hk) at 2. rewrite <- (insert_delete_eq d k v).
  rewrite !map_fold_insert_L; [lia | | apply lookup_delete_eq | | apply lookup_delete_eq];
    intros; lia.
Qed.

Lemma dict_sum_zero (d : gmap string Z) :
  (∀ k v, d !! k = Some v → v = 0%Z) → dict_sum d = 0%Z.
Proof.
  unfold dict_sum. induction d as [|k v d Hk IH] using map_ind; intros Hz.
  - by rewrite map_fold_empty.
  - rewrite map_fold_insert_L; [| intros; lia | done].
    rewrite IH.
    + rewrite (Hz k v); [done | apply lookup_insert_eq].
    + intros k' v' Hk'. apply (Hz k'). rewrite lookup_insert_ne; [done |]. congruence.
Qed.

(** ** The scanning loop *)

Section Scan.
Context {W : Type} `{!OS W}.
Implicit Types (s : state W) (t : gmap string Z) (ids : gset string).

Lemma bind_unfold {A B} (m : M W A) (k : A → M W B) s :
  (m ≫= k) s =
    match m s with
    | (Ok a, s') => k a s'
    | (Raise e, s') => (Raise e, s')
    end.
Proof. reflexivity. Qed.

(** Proof rule for the loop: a property of the entries still to visit,
    the three accumulators and the events so far, preserved by a skipped
    entry, a mismatched file and a matched file, holds when the loop
    returns. *)
Lemma scan_entries_rule ids (dir out : string)
    (I : list string → list string → list string → gmap string Z → list event → Prop) :
  (∀ name rest m mm t tr,
      I (name :: rest) m mm t tr →
      I rest m mm t (tr ++ [EvIsFile (os_path_join dir name) false])) →
  (∀ name rest m mm t tr number,
      I (name :: rest) m mm t tr →
      extract_number_from_filename name = Ok number →
      (∀ n, number = Some n → n ∉ ids) →
      I rest m (mm ++ [name]) t (tr ++ [EvIsFile (os_path_join dir name) true])) →
  (∀ name rest m mm t tr n v,
      I (name :: rest) m mm t tr →
      extract_number_from_filename name = Ok (Some n) →
      n ∈ ids →
      t !! n = Some v →
      I rest (m ++ [name]) mm (<[n := (v + 1)%Z]> t)
        ((tr ++ [EvIsFile (os_path_join dir name) true])
           ++ [EvCopy (os_path_join dir name) out])) →
  ∀ entries m mm t s m' mm' t' s',
    scan_entries ids dir out entries m mm t s = (Ok (m', mm', t'), s') →
    I entries m mm t (trace s) →
    I [] m' mm' t' (trace s').
Proof.
  intros Hskip Hmis Hmat.
  induction entries as [|name rest IH]; intros m mm t s m' mm' t' s' Hrun HI.
  - cbn in Hrun. by injection Hrun as <- <- <- <-.
  - cbn [scan_entries] in Hrun.
    rewrite bind_unfold in Hrun. unfold isfile in Hrun.
    destruct (os_path_isfile (os_path_join dir name) (world s)).
    + rewrite bind_unfold in Hrun. unfold lift in Hrun at 1.
      destruct (extract_number_from_filename name) as [[n|]|e] eqn:Hext; [| | done].
      * destruct (bool_decide_reflect (n ∈ ids)) as [Hin | Hnin].
        -- rewrite bind_unfold in Hrun. unfold copy in Hrun at 1.
           rewrite bind_unfold in Hrun. unfold emit, command in Hrun.
           cbn [world trace] in Hrun.
           destruct (shutil_copy (os_path_join dir name) out (world s)) as [[[]|e] w'];
             [| done].
           rewrite bind_unfold in Hrun. unfold lift in Hrun at 1.
           destruct (dict_iadd t n 1) as [t2|e] eqn:Hadd; [| done].
           apply dict_iadd_ok in Hadd as (v & Hv & ->).
           eapply IH; [exact Hrun |]. cbn [trace]. by eapply Hmat.
        -- eapply IH; [exact Hrun |]. cbn [trace].
           eapply Hmis; [done | done |]. by intros ? [= ->].
      * eapply IH; [exact Hrun |]. cbn [trace]. eapply Hmis; [done | done | done].
    + eapply IH; [exact Hrun |]. cbn [trace]. by apply Hskip.
Qed.

End Scan.


Lemma matches_of_snoc (id n : string) (m : list string) (name : string) :
  id_of name = Some n →
  matches_of id (m ++ [name]) = (matches_of id m + if decide (n = id) then 1 else 0)%Z.
Proof.
  intros Hn. unfold matches_of. rewrite filter_app, length_app.
  rewrite filter_cons, filter_nil, Hn.
  destruct (decide (n = id)) as [-> | Hne].
  - rewrite decide_True by done. simpl. lia.
  - rewrite decide_False by congruence. simpl. lia.
Qed.


Section Matcher.
Context {W : Type} `{!OS W}.
Implicit Types (s : state W) (t : gmap string Z) (ids : gset string).

(** The two ways for the matcher to return: the early return on a
    missing directory, or a completed scan of the listing. *)
Lemma match_images_inv ids (dir out : string) s m mm t s' :
  match_images_with_client_ids ids dir out s = (Ok (m, mm, t), s') →
  (os_path_exists dir (world s) = false ∧ m = [] ∧ mm = [] ∧ t = ∅
   ∧ s' = mkState (world s)
            (trace s ++ [EvUi StError ("The directory " +:+ dir
                                       +:+ " does not exist. Please check the path.")]))
  ∨ (os_path_exists dir (world s) = true
     ∧ ∃ w1 entries,
         path_mkdir out (world s) = (Ok (), w1)
         ∧ os_listdir dir w1 = Ok entries
         ∧ scan_entries ids dir out entries [] [] (gset_to_gmap 0%Z ids)
             (mkState w1 (trace s ++ [EvMkdir out])) = (Ok (m, mm, t), s')).
Proof.
  unfold match_images_with_client_ids. rewrite bind_unfold. unfold query at 1.
  destruct (os_path_exists dir (world s)); cbn [negb].
  - intros Hrun. right. split; [done |].
    rewrite bind_unfold in Hrun. unfold mkdir in Hrun at 1.
    rewrite bind_unfold in Hrun. unfold emit, command in Hrun. cbn [world trace] in Hrun.
    destruct (path_mkdir out (world s)) as [[[]|e] w1] eqn:Hmk; [| done].
    rewrite bind_unfold in Hrun. cbn [world] in Hrun.
    destruct (os_listdir dir w1) as [entries|e] eqn:Hls; [| done].
    exists w1, entries. split_and!; [done | done | exact Hrun].
  - intros Hrun. left. split; [done |].
    rewrite bind_unfold in Hrun. unfold st_error, emit in Hrun.
    cbn in Hrun. by injection Hrun as <- <- <- <-.
Qed.

Lemma scan_entries_tally ids (dir out : string) entries s m mm t s' :
  scan_entries ids dir out entries [] [] (gset_to_gmap 0%Z ids) s = (Ok (m, mm, t), s') →
  dom t = ids
  ∧ (∀ k, k ∈ ids → t !! k = Some (matches_of k m))
  ∧ dict_sum t = Z.of_nat (length m).
Proof.
  intros Hrun.
  apply (scan_entries_rule ids dir out
           (λ _ m _ t _, dom t = ids
                         ∧ (∀ k, k ∈ ids → t !! k = Some (matches_of k m))
                         ∧ dict_sum t = Z.of_nat (length m))) in Hrun; [done | ..].
  - done.
  - done.
  - intros name rest m0 mm0 t0 tr n v (Hdom & Hcnt & Hsum) Hext Hin Hv. split_and!.
    + rewrite dom_insert_lookup_L; [done | by exists v].
    + intros k Hk. rewrite (matches_of_snoc k n); [| unfold id_of; by rewrite Hext].
      destruct (decide (n = k)) as [-> | Hne].
      * rewrite lookup_insert_eq. specialize (Hcnt k Hk). congruence.
      * rewrite lookup_insert_ne by done. rewrite Z.add_0_r. by apply Hcnt.
    + rewrite (dict_sum_insert _ _ v) by done. rewrite length_app. simpl. lia.
  - split_and!.
    + apply dom_gset_to_gmap.
    + intros k Hk. by apply lookup_gset_to_gmap_Some.
    + apply dict_sum_zero. intros k v [_ <-]%lookup_gset_to_gmap_Some. done.
Qed.


Lemma match_images_dom ids (dir out : string) s m mm t s' :
  match_images_with_client_ids ids dir out s = (Ok (m, mm, t), s') →
  dom t ⊆ ids ∧ (os_path_exists dir (world s) = true → dom t = ids).
Proof.
  intros [(Hmiss & _ & _ & -> & _) | (_ & w1 & entries & _ & _ & Hscan)]%match_images_inv.
  - split; [by rewrite dom_empty_L | congruence].
  - apply scan_entries_tally in Hscan as (-> & _). done.
Qed.

End Matcher.

(** ** The directory matcher *)

(** C2, as the code has it: over an existing source directory the tally
    returned by the matcher has exactly the identifiers of the target set
    as keys, each mapped to the number of matched files carrying it (zero
    when there is none); when the source directory is missing the tally is
    empty.  In both cases no key outside the target set appears and no
    count is negative. *)
Theorem match_images_tally_keys {W : Type} `{!OS W} (client_ids : gset string)
    (images_dir output_folder : string) (s : state W)
    (matched mismatched : list string) (tally : gmap string Z) :
  (match_images_with_client_ids client_ids images_dir output_folder s).1
    = Ok (matched, mismatched, tally) →
  dom tally ⊆ client_ids
  ∧ (∀ id n, tally !! id = Some n → (0 ≤ n)%Z)
  ∧ (os_path_exists images_dir (world s) = true →
     dom tally = client_ids
     ∧ ∀ id, id ∈ client_ids → tally !! id = Some (matches_of id matched))
  ∧ (os_path_exists images_dir (world s) = false → tally = ∅).
Proof.
  destruct (match_images_with_client_ids client_ids images_dir output_folder s)
    as [r s'] eqn:Hrun.
  simpl. intros ->.
  apply match_images_inv in Hrun
    as [(Hmiss & -> & -> & -> & ->) | (Hex & w1 & entries & _ & _ & Hscan)].
  - split_and!; [set_solver | by intros ?? ?%lookup_empty_Some | congruence | done].
  - apply scan_entries_tally in Hscan as (Hdom & Hcnt & _).
    split_and!; [by rewrite Hdom | | done | congruence].
    intros id n Hid.
    assert (id ∈ client_ids) as Hin by (rewrite <- Hdom; by apply elem_of_dom).
    rewrite (Hcnt id Hin) in Hid. injection Hid as <-. unfold matches_of. lia.
Qed.

Lemma match_images_tally_keys_witness :
  dom ({[ "00000000001" := 1%Z; "00000000022" := 1%Z ]} : gmap string Z)
    ⊆ ({[ "00000000001"; "00000000022" ]} : gset string).
Proof.
  apply (match_images_tally_keys {[ "00000000001"; "00000000022" ]} "imgs" "out"
           (MemFS.start scenario1) ["1_a.jpg"; "22_b.jpg"] ["99_c.jpg"]
           {[ "00000000001" := 1%Z; "00000000022" := 1%Z ]}).
  vm_compute. reflexivity.
Defined.

(** C2 as stated fails: on a missing source directory the matcher returns
    an empty tally, which does not map the identifier of the target set. *)
Lemma match_images_missing_dir_empty_tally :
  (match_images_with_client_ids {[ "00000000001" ]} "nowhere" "out"
     (MemFS.start scenario1)).1 = Ok ([], [], ∅)
  ∧ "00000000001" ∈ ({[ "00000000001" ]} : gset string)
  ∧ (∅ : gmap string Z) !! "00000000001" = None.
Proof. split_and!; [by vm_compute | set_solver | done]. Qed.



(** C7: after a scan, the counts of the returned tally add up to the
    number of names in the returned matched sequence. *)
Theorem match_images_tally_sum {W : Type} `{!OS W} (client_ids : gset string)
    (images_dir output_folder : string) (s : state W)
    (matched mismatched : list string) (tally : gmap string Z) :
  (match_images_with_client_ids client_ids images_dir output_folder s).1
    = Ok (matched, mismatched, tally) →
  dict_sum tally = Z.of_nat (length matched).
Proof.
  destruct (match_images_with_client_ids client_ids images_dir output_folder s)
    as [r s'] eqn:Hrun.
  simpl. intros ->.
  apply match_images_inv in Hrun
    as [(_ & -> & _ & -> & _) | (_ & w1 & entries & _ & _ & Hscan)].
  - done.
  - by apply scan_entries_tally in Hscan as (_ & _ & Hsum).
Qed.

Lemma match_images_tally_sum_witness :
  dict_sum {[ "00000000001" := 1%Z; "00000000022" := 1%Z ]}
    = Z.of_nat (length ["1_a.jpg"; "22_b.jpg"]).
Proof.
  apply (match_images_tally_sum {[ "00000000001"; "00000000022" ]} "imgs" "out"
           (MemFS.start scenario1) ["1_a.jpg"; "22_b.jpg"] ["99_c.jpg"]).
  vm_compute. reflexivity.
Defined.

(** ** The fallback pass *)

Lemma zero_count_ids_ok (cids : list string) (t : gmap string Z) (u : gset string) :
  zero_count_ids cids t = Ok u →
  (∀ cid, cid ∈ cids → is_Some (t !! cid))
  ∧ (∀ cid, cid ∈ u ↔ cid ∈ cids ∧ t !! cid = Some 0%Z).
Proof.
  revert u. induction cids as [|c cids IH]; intros u; simpl.
  - intros [= <-]. split; [by intros ? ?%elem_of_nil |].
    intros cid. split; [by intros ?%not_elem_of_empty | by intros [?%elem_of_nil _]].
  - unfold dict_getitem. destruct (t !! c) as [n|] eqn:Hc; [| done].
    destruct (zero_count_ids cids t) as [u0|] eqn:Hrest; [| done].
    destruct (IH u0 eq_refl) as [Hkeys Hu0]. intros [= <-]. split.
    + intros cid [-> | Hin]%elem_of_cons; [by exists n | by apply Hkeys].
    + intros cid. destruct (Z.eqb_spec n 0) as [-> | Hn].
      * rewrite elem_of_union, elem_of_singleton, Hu0, elem_of_cons. split.
        -- intros [-> | [Hin Hz]]; (split; [by auto | done]).
        -- intros [[-> | Hin] Hz]; [by left | by right].
      * rewrite Hu0, elem_of_cons. split.
        -- intros [Hin Hz]. split; [by right | done].
        -- intros [[-> | Hin] Hz]; [congruence | done].
Qed.

Lemma unmatched_client_ids_ok (ids : gset string) (t : gmap string Z) (u : gset string) :
  unmatched_client_ids ids t = Ok u →
  ids ⊆ dom t ∧ (∀ cid, cid ∈ u ↔ cid ∈ ids ∧ t !! cid = Some 0%Z).
Proof.
  intros [Hkeys Hu]%zero_count_ids_ok. split.
  - intros cid Hin. apply elem_of_dom, Hkeys. by apply elem_of_elements.
  - intros cid. rewrite Hu. by rewrite elem_of_elements.
Qed.

Lemma zero_count_ids_total (cids : list string) (t : gmap string Z) :
  (∀ cid, cid ∈ cids → is_Some (t !! cid)) → ∃ u, zero_count_ids cids t = Ok u.
Proof.
  induction cids as [|c cids IH]; intros Hkeys; simpl; [by eexists |].
  unfold dict_getitem. destruct (Hkeys c) as [n ->]; [by left |].
  destruct IH as [u ->]; [intros cid Hin; apply Hkeys; by right |]. by eexists.
Qed.

Lemma unmatched_client_ids_total (ids : gset string) (t : gmap string Z) :
  ids ⊆ dom t → ∃ u, unmatched_client_ids ids t = Ok u.
Proof.
  intros Hsub. apply zero_count_ids_total.
  intros cid Hin%elem_of_elements. by apply elem_of_dom, Hsub.
Qed.

Lemma unmatched_client_ids_empty_tally (ids : gset string) :
  ids ≠ ∅ → ∃ k, k ∈ ids ∧ unmatched_client_ids ids ∅ = Raise (KeyError k).
Proof.
  intros Hne. unfold unmatched_client_ids.
  destruct (elements ids) as [|k rest] eqn:Hel.
  - by apply elements_empty_inv, leibniz_equiv in Hel.
  - exists k. split; [apply elem_of_elements; rewrite Hel; by left |].
    simpl. unfold dict_getitem. by rewrite lookup_empty.
Qed.

Lemma merge_counts_total (items : list (string * Z)) (d : gmap string Z) :
  (∀ k, k ∈ items.*1 → is_Some (d !! k)) → ∃ d', merge_counts items d = Ok d'.
Proof.
  revert d. induction items as [|[k c] items IH]; intros d Hkeys; simpl; [by eexists |].
  unfold dict_iadd, dict_getitem.
  destruct (Hkeys k) as [v ->]; [simpl; by left |].
  apply IH. intros k' Hk'.
  destruct (decide (k = k')) as [-> | Hne].
  - rewrite lookup_insert_eq. by eexists.
  - rewrite lookup_insert_ne by done. apply Hkeys. simpl. by right.
Qed.

Lemma merge_counts_other (items : list (string * Z)) (d d' : gmap string Z) (k : string) :
  merge_counts items d = Ok d' → k ∉ items.*1 → d' !! k = d !! k.
Proof.
  revert d. induction items as [|[k0 c] items IH]; intros d; simpl.
  - by intros [= <-].
  - destruct (dict_iadd d k0 c) as [d1|] eqn:Hadd; [| done].
    apply dict_iadd_ok in Hadd as (v & Hv & ->).
    intros Hrest Hnot. apply not_elem_of_cons in Hnot as [Hne Hnot].
    rewrite (IH _ Hrest Hnot). by rewrite lookup_insert_ne.
Qed.

Lemma map_to_list_keys (fb : gmap string Z) (k : string) :
  k ∈ (map_to_list fb).*1 ↔ k ∈ dom fb.
Proof.
  rewrite elem_of_dom, list_elem_of_fmap. split.
  - intros ([k' v] & -> & Hin%elem_of_map_to_list). by exists v.
  - intros [v Hv]. exists (k, v). split; [done | by apply elem_of_map_to_list].
Qed.

Section Fallback.
Context {W : Type} `{!OS W}.
Implicit Types (s : state W) (t : gmap string Z) (ids : gset string).

(** What a returning fallback pass did: nothing, or a second scan over
    the unmatched identifiers followed by the merge. *)
Lemma fallback_pass_inv ids t (out : string) (fallback : option string) s t' s' :
  fallback_pass ids t out fallback s = (Ok t', s') →
  ∃ u, unmatched_client_ids ids t = Ok u
       ∧ (t' = t
          ∨ ∃ dir s1 fm fmm fb s2,
              match_images_with_client_ids u dir out s1 = (Ok (fm, fmm, fb), s2)
              ∧ merge_counts (map_to_list fb) t = Ok t').
Proof.
  unfold fallback_pass. rewrite bind_unfold. unfold lift at 1.
  destruct (unmatched_client_ids ids t) as [u|e]; [| done].
  intros Hrun. exists u. split; [done |].
  destruct (path_given fallback) as [dir|]; [| left; by injection Hrun as <- _].
  destruct (bool_decide (u = ∅)); cbn [negb] in Hrun; [left; by injection Hrun as <- _ |].
  right. rewrite bind_unfold in Hrun. unfold st_write, emit in Hrun.
  rewrite bind_unfold in Hrun.
  destruct (match_images_with_client_ids u dir out _) as [[[[fm fmm] fb]|e] s2] eqn:Hm;
    [| done].
  unfold lift in Hrun.
  destruct (merge_counts (map_to_list fb) t) as [t2|e] eqn:Hmerge; [| done].
  injection Hrun as <- _. by eexists dir, _, fm, fmm, fb, s2.
Qed.

End Fallback.

(** C8: a fallback pass that returns leaves every nonzero count of the
    primary tally as it was.  Its target set [u] holds exactly the
    identifiers of the client set whose primary count is zero, and only
    counts of members of [u] can differ after the merge. *)
Theorem fallback_pass_keeps_matched {W : Type} `{!OS W} (client_ids : gset string)
    (primary : gmap string Z) (output_folder : string) (fallback_images_dir : option string)
    (s : state W) (merged : gmap string Z) :
  (fallback_pass client_ids primary output_folder fallback_images_dir s).1 = Ok merged →
  ∃ u, unmatched_client_ids client_ids primary = Ok u
       ∧ (∀ cid, cid ∈ u ↔ cid ∈ client_ids ∧ primary !! cid = Some 0%Z)
       ∧ (∀ cid n, primary !! cid = Some n → n ≠ 0%Z → merged !! cid = Some n)
       ∧ (∀ cid, merged !! cid ≠ primary !! cid → cid ∈ u).
Proof.
  destruct (fallback_pass client_ids primary output_folder fallback_images_dir s)
    as [r s'] eqn:Hrun.
  simpl. intros ->.
  apply fallback_pass_inv in Hrun as (u & Hu & Hcases). exists u.
  destruct (unmatched_client_ids_ok _ _ _ Hu) as [_ Hzero].
  assert (∀ cid, cid ∉ u → merged !! cid = primary !! cid) as Hsame.
  { intros cid Hnot.
    destruct Hcases as [-> | (dir & s1 & fm & fmm & fb & s2 & Hscan & Hmerge)]; [done |].
    apply (merge_counts_other _ _ _ _ Hmerge).
    rewrite map_to_list_keys. apply match_images_dom in Hscan as [Hsub _].
    intros Hin. apply Hnot, Hsub, Hin. }
  split_and!; [done | done | |].
  - intros cid n Hn Hnz. rewrite Hsame; [done |].
    intros [_ Hz]%Hzero. congruence.
  - intros cid Hdiff. destruct (decide (cid ∈ u)) as [Hin | Hnot]; [done |].
    by destruct Hdiff; apply Hsame.
Qed.

Lemma fallback_pass_keeps_matched_witness :
  ({[ "00000000001" := 1%Z; "00000000022" := 1%Z ]} : gmap string Z) !! "00000000022"
    = Some 1%Z.
Proof.
  destruct (fallback_pass_keeps_matched {[ "00000000001"; "00000000022" ]}
              {[ "00000000001" := 0%Z; "00000000022" := 1%Z ]} "out" (Some "more")
              (MemFS.start scenario4)
              {[ "00000000001" := 1%Z; "00000000022" := 1%Z ]})
    as (u & _ & _ & Hkeep & _).
  - vm_compute. reflexivity.
  - apply (Hkeep "00000000022" 1%Z); [vm_compute; reflexivity | discriminate].
Defined.

(** C10: when the unmatched identifiers [u] could be computed from the
    primary tally and the second scan over [u] returned, the keys of the
    fallback tally are keys of the primary tally, so the merge returns
    without a missing key.  The unmatched identifiers are drawn from the
    client set, and the keys of the fallback tally are exactly [u] when the
    fallback directory exists. *)
Theorem fallback_merge_finds_every_key {W : Type} `{!OS W} (client_ids : gset string)
    (output_folder fallback_dir : string) (s2 : state W)
    (fmatched fmismatched : list string)
    (primary fallback : gmap string Z) (u : gset string) :
  unmatched_client_ids client_ids primary = Ok u →
  (match_images_with_client_ids u fallback_dir output_folder s2).1
    = Ok (fmatched, fmismatched, fallback) →
  dom fallback ⊆ dom primary
  ∧ (∃ merged, merge_counts (map_to_list fallback) primary = Ok merged)
  ∧ u ⊆ client_ids
  ∧ (os_path_exists fallback_dir (world s2) = true → dom fallback = u).
Proof.
  intros Hu.
  destruct (match_images_with_client_ids u fallback_dir output_folder s2)
    as [r s3] eqn:Hscan.
  simpl. intros ->.
  apply match_images_dom in Hscan as [Hsub Hex].
  apply unmatched_client_ids_ok in Hu as [Hkeys Hzero].
  assert (u ⊆ client_ids) as Hu_sub by (intros cid [Hin _]%Hzero; done).
  assert (dom fallback ⊆ dom primary) as Hdom by (etrans; [done | by etrans]).
  split_and!; [done | | done | done].
  apply merge_counts_total. intros k Hk%map_to_list_keys.
  by apply elem_of_dom, Hdom.
Qed.

Lemma fallback_merge_finds_every_key_witness :
  dom ({[ "00000000001" := 1%Z ]} : gmap string Z)
    ⊆ dom ({[ "00000000001" := 0%Z; "00000000022" := 1%Z ]} : gmap string Z)
  ∧ ∃ merged,
      merge_counts (map_to_list ({[ "00000000001" := 1%Z ]} : gmap string Z))
        {[ "00000000001" := 0%Z; "00000000022" := 1%Z ]} = Ok merged.
Proof.
  destruct (fallback_merge_finds_every_key {[ "00000000001"; "00000000022" ]}
              "out" "more" (MemFS.start scenario4) ["1_x.jpg"] ["22_y.jpg"]
              {[ "00000000001" := 0%Z; "00000000022" := 1%Z ]}
              {[ "00000000001" := 1%Z ]} {[ "00000000001" ]})
    as (Hdom & Hmerge & _).
  - vm_compute. reflexivity.
  - vm_compute. reflexivity.
  - exact (conj Hdom Hmerge).
Defined.

(** ** The whole run *)

Section Run.
Context {W : Type} `{!OS W}.
Implicit Types (s : state W) (ids : gset string).

Lemma match_images_missing ids (dir out : string) s :
  os_path_exists dir (world s) = false →
  match_images_with_client_ids ids dir out s
    = (Ok ([], [], ∅),
       mkState (world s)
         (trace s ++ [EvUi StError ("The directory " +:+ dir
                                    +:+ " does not exist. Please check the path.")])).
Proof.
  intros Hmiss. unfold match_images_with_client_ids.
  rewrite bind_unfold. unfold query. by rewrite Hmiss.
Qed.

(** A run whose table was read and whose primary directory is missing
    reports the directory and then leaves [process_images] with a
    [KeyError] on one of the identifiers; nothing else was done. *)
Lemma process_images_missing_primary_dir (excel_path images_dir output_folder : string)
    (fallback_images_dir : option string) s (df : DataFrame) ids s1 :
  read_client_ids_from_excel excel_path s = (Ok (df, ids), s1) →
  df_empty df = false →
  ids ≠ ∅ →
  os_path_exists images_dir (world s1) = false →
  ∃ k, k ∈ ids
       ∧ process_images excel_path images_dir output_folder fallback_images_dir s
         = (Raise (KeyError k),
            mkState (world s1)
              (trace s1 ++ [EvUi StError ("The directory " +:+ images_dir
                                          +:+ " does not exist. Please check the path.")])).
Proof.
  intros Hload Hdf Hids Hmiss.
  destruct (unmatched_client_ids_empty_tally ids Hids) as (k & Hk & Hraise).
  exists k. split; [done |].
  unfold process_images. rewrite bind_unfold, Hload, Hdf.
  rewrite bool_decide_eq_false_2 by done. cbn [orb].
  rewrite bind_unfold, (match_images_missing _ _ _ _ Hmiss).
  rewrite bind_unfold. unfold fallback_pass. rewrite bind_unfold.
  unfold lift. by rewrite Hraise.
Qed.

End Run.

(** C1: with the primary images directory missing, the condition is shown
    to the user and no table is written, but the run does not end there:
    [process_images] is left by a [KeyError] raised on the empty tally. *)
Theorem process_images_missing_primary_dir_raises :
  MemFS.observe
    (process_images "one.xlsx" "nowhere" "out" None (MemFS.start scenario3))
  = (Raise (KeyError "00000000001"),
     [EvUi StError "The directory nowhere does not exist. Please check the path."]).
Proof. vm_compute. reflexivity. Qed.

(** C9: when the table cannot be read, or has no [ClientID] column, the
    loader shows the error and returns the empty table and the empty
    identifier set; [process_images] then shows that no identifier was
    found and returns without a path.  Neither raises, the world is left
    as it was, and the only events are the two messages: no table is
    written. *)
Theorem loader_failure_aborts {W : Type} `{!OS W}
    (excel_path images_dir output_folder : string) (fallback_images_dir : option string)
    (s : state W) :
  (∃ e, pd_read_excel excel_path (world s) = Raise e)
  ∨ (∃ df, pd_read_excel excel_path (world s) = Ok df ∧ "ClientID" ∉ df_columns df) →
  ∃ msg,
    read_client_ids_from_excel excel_path s
      = (Ok (df_new, ∅), mkState (world s) (trace s ++ [EvUi StError msg]))
    ∧ process_images excel_path images_dir output_folder fallback_images_dir s
      = (Ok None,
         mkState (world s)
           (trace s ++ [EvUi StError msg; EvUi StError "No valid client IDs found."]))
    ∧ tables_written [EvUi StError msg; EvUi StError "No valid client IDs found."] = [].
Proof.
  intros Hfail.
  assert (∃ e, read_client_ids_from_excel excel_path s
               = (Ok (df_new, ∅),
                  mkState (world s)
                    (trace s ++ [EvUi StError ("Error reading Excel file: " +:+ exn_str e)])))
    as [e Hload].
  { unfold read_client_ids_from_excel, try_except. rewrite bind_unfold.
    destruct Hfail as [[e He] | (df & Hdf & Hcol)].
    - exists e. by rewrite He.
    - exists (ValueError "Excel file must contain a 'ClientID' column.").
      rewrite Hdf. by rewrite bool_decide_eq_false_2. }
  exists ("Error reading Excel file: " +:+ exn_str e). split_and!; [done | | done].
  unfold process_images. rewrite bind_unfold, Hload.
  cbn. rewrite bind_unfold. unfold st_error, emit. cbn.
  by rewrite <- app_assoc.
Qed.

Lemma loader_failure_aborts_witness :
  ∃ msg,
    MemFS.observe (process_images "bad.xlsx" "imgs" "out" None (MemFS.start scenario3))
    = (Ok None, [EvUi StError msg; EvUi StError "No valid client IDs found."]).
Proof.
  destruct (loader_failure_aborts "bad.xlsx" "imgs" "out" None (MemFS.start scenario3))
    as (msg & _ & Hrun & _).
  - right. exists no_id_table. split; [vm_compute; reflexivity |].
    vm_compute. intros Hin. repeat (apply elem_of_cons in Hin as [Hin | Hin]; [discriminate |]).
    by apply elem_of_nil in Hin.
  - exists msg. unfold MemFS.observe. by rewrite Hrun.
Defined.


(** * Further properties of the code *)

(** ** Column lookup and update *)

Lemma assoc_get_is_Some {A} (name : string) (cols : list (string * A)) :
  name ∈ cols.*1 ↔ is_Some (assoc_get name cols).
Proof.
  induction cols as [|[n c] cols IH]; simpl.
  - split; [by intros ?%elem_of_nil | by intros [? ?]].
  - destruct (String.eqb_spec n name) as [-> | Hne].
    + split; [by eexists | intros _; by left].
    + rewrite elem_of_cons, IH. split; [by intros [? | ?] | by right].
Qed.

Lemma assoc_get_set_eq {A} (name : string) (col : A) (cols : list (string * A)) :
  assoc_get name (assoc_set name col cols) = Some col.
Proof.
  induction cols as [|[n c] cols IH]; simpl.
  - by rewrite String.eqb_refl.
  - destruct (String.eqb_spec n name) as [-> | Hne]; simpl.
    + by rewrite String.eqb_refl.
    + by destruct (String.eqb_spec n name).
Qed.

Lemma assoc_get_set_ne {A} (name name' : string) (col : A) (cols : list (string * A)) :
  name' ≠ name → assoc_get name' (assoc_set name col cols) = assoc_get name' cols.
Proof.
  intros Hne. induction cols as [|[n c] cols IH]; simpl.
  - by destruct (String.eqb_spec name name').
  - destruct (String.eqb_spec n name) as [-> | Hn]; simpl.
    + by destruct (String.eqb_spec name name').
    + by rewrite IH.
Qed.

Lemma assoc_set_labels {A} (name : string) (col : A) (cols : list (string * A)) :
  name ∈ cols.*1 → (assoc_set name col cols).*1 = cols.*1.
Proof.
  induction cols as [|[n c] cols IH]; simpl; [by intros ?%elem_of_nil |].
  destruct (String.eqb_spec n name) as [-> | Hn]; [done |].
  intros [? | Hin]%elem_of_cons; [congruence |]. cbn. f_equal. by apply IH.
Qed.

Lemma df_getitem_setitem_eq (name : string) (col : list cell) (df : DataFrame) :
  df_getitem name (df_setitem name col df) = Ok col.
Proof. unfold df_getitem, df_setitem. simpl. by rewrite assoc_get_set_eq. Qed.

Lemma df_getitem_setitem_ne (name name' : string) (col : list cell) (df : DataFrame) :
  name' ≠ name → df_getitem name' (df_setitem name col df) = df_getitem name' df.
Proof. intros Hne. unfold df_getitem, df_setitem. simpl. by rewrite assoc_get_set_ne. Qed.

(** ** The loader *)

Section Loader.
Context {W : Type} `{!OS W}.
Implicit Types (s : state W).

Lemma read_client_ids_success (excel_path : string) s (df : DataFrame) (col : list cell) :
  pd_read_excel excel_path (world s) = Ok df →
  df_getitem "ClientID" df = Ok col →
  read_client_ids_from_excel excel_path s
    = (Ok (df_setitem "ClientID" (normalize_id <$> col) df,
           list_to_set ((λ x, PyStr.zfill 11 (py_str x)) <$> col)), s).
Proof.
  intros Hread Hcol.
  unfold read_client_ids_from_excel, try_except. rewrite bind_unfold, Hread.
  assert ("ClientID" ∈ df_columns df) as Hin.
  { unfold df_columns. apply assoc_get_is_Some. unfold df_getitem in Hcol.
    destruct (assoc_get "ClientID" (df_cols df)); [by eexists | done]. }
  rewrite bool_decide_eq_true_2 by done. cbn [negb].
  rewrite bind_unfold. unfold lift at 1. rewrite Hcol.
  rewrite bind_unfold. unfold lift at 1. rewrite df_getitem_setitem_eq.
  cbn. do 3 f_equal. rewrite <- list_fmap_compose. done.
Qed.

Lemma read_client_ids_cases (excel_path : string) s :
  (∃ msg, read_client_ids_from_excel excel_path s
          = (Ok (df_new, ∅), mkState (world s) (trace s ++ [EvUi StError msg])))
  ∨ (∃ df col, pd_read_excel excel_path (world s) = Ok df
               ∧ df_getitem "ClientID" df = Ok col
               ∧ read_client_ids_from_excel excel_path s
                 = (Ok (df_setitem "ClientID" (normalize_id <$> col) df,
                        list_to_set ((λ x, PyStr.zfill 11 (py_str x)) <$> col)), s)).
Proof.
  destruct (pd_read_excel excel_path (world s)) as [df|e] eqn:Hread.
  - destruct (df_getitem "ClientID" df) as [col|e] eqn:Hcol.
    + right. exists df, col. split_and!; [done | done |].
      by apply read_client_ids_success.
    + left. exists ("Error reading Excel file: "
                     +:+ exn_str (ValueError "Excel file must contain a 'ClientID' column.")).
      unfold read_client_ids_from_excel, try_except. rewrite bind_unfold, Hread.
      rewrite bool_decide_eq_false_2; [done |].
      unfold df_columns. rewrite assoc_get_is_Some. unfold df_getitem in Hcol.
      destruct (assoc_get "ClientID" (df_cols df)); [done | by intros [? ?]].
  - left. exists ("Error reading Excel file: " +:+ exn_str e).
    unfold read_client_ids_from_excel, try_except. by rewrite bind_unfold, Hread.
Qed.

End Loader.

(** X1: the loader never raises and never changes the world: whatever
    the spreadsheet reader does, it returns a table and an identifier set,
    and shows at most one message. *)
Theorem read_client_ids_never_raises {W : Type} `{!OS W} (excel_path : string) (s : state W) :
  ∃ df ids evs,
    read_client_ids_from_excel excel_path s
      = (Ok (df, ids), mkState (world s) (trace s ++ evs))
    ∧ (length evs ≤ 1)%nat
    ∧ copies evs = [] ∧ tables_written evs = [].
Proof.
  destruct (read_client_ids_cases excel_path s) as [[msg H] | (df & col & _ & _ & H)].
  - exists df_new, ∅, [EvUi StError msg]. split_and!; [done | simpl; lia | done | done].
  - eexists _, _, []. rewrite H, app_nil_r.
    split_and!; [by destruct s | simpl; lia | done | done].
Qed.

(** X2: for a table whose cells are text or integers: when the table is
    read and has a [ClientID] column, the loader shows nothing, keeps the
    column labels and every other column, replaces the [ClientID] column by
    its normalised cells, and returns the set of the normalised
    identifiers. *)
Theorem read_client_ids_normalizes {W : Type} `{!OS W} (excel_path : string) (s : state W)
    (df : DataFrame) :
  pd_read_excel excel_path (world s) = Ok df →
  "ClientID" ∈ df_columns df →
  ∃ col df' ids,
    df_getitem "ClientID" df = Ok col
    ∧ read_client_ids_from_excel excel_path s = (Ok (df', ids), s)
    ∧ df_columns df' = df_columns df
    ∧ df_getitem "ClientID" df' = Ok (normalize_id <$> col)
    ∧ (∀ name, name ≠ "ClientID" → df_getitem name df' = df_getitem name df)
    ∧ (∀ id, id ∈ ids ↔ ∃ x, x ∈ col ∧ id = PyStr.zfill 11 (py_str x)).
Proof.
  intros Hread Hin.
  assert (∃ col, df_getitem "ClientID" df = Ok col) as [col Hcol].
  { unfold df_columns in Hin. apply assoc_get_is_Some in Hin as [col Hcol].
    exists col. unfold df_getitem. by rewrite Hcol. }
  exists col. eexists _, _. split; [done |].
  split; [by apply read_client_ids_success |]. split_and!.
  - unfold df_columns, df_setitem. simpl. by apply assoc_set_labels.
  - apply df_getitem_setitem_eq.
  - intros name Hne. by apply df_getitem_setitem_ne.
  - intros id. rewrite elem_of_list_to_set, list_elem_of_fmap. split.
    + intros (x & -> & Hx). by exists x.
    + intros (x & Hx & ->). by exists x.
Qed.

Lemma read_client_ids_normalizes_witness :
  (MemFS.observe (read_client_ids_from_excel "clients.xlsx" (MemFS.start scenario1))).2 = [].
Proof.
  destruct (read_client_ids_normalizes "clients.xlsx" (MemFS.start scenario1) clients_table)
    as (col & df' & ids & _ & Hrun & _).
  - vm_compute. reflexivity.
  - vm_compute. apply list_elem_of_In. simpl. tauto.
  - unfold MemFS.observe. by rewrite Hrun.
Defined.

(** X3: for a table whose cells are text or integers: every identifier
    returned by the loader has at least eleven characters and is left
    unchanged by a further normalisation. *)
Theorem read_client_ids_width {W : Type} `{!OS W} (excel_path : string) (s : state W)
    (df : DataFrame) (ids : gset string) (id : string) :
  (read_client_ids_from_excel excel_path s).1 = Ok (df, ids) →
  id ∈ ids →
  (11 ≤ String.length id)%nat ∧ PyStr.zfill 11 id = id.
Proof.
  intros Hrun Hid.
  assert (∃ y, id = PyStr.zfill 11 y) as [y ->].
  { destruct (read_client_ids_cases excel_path s) as [[msg H] | (df0 & col & _ & _ & H)];
      rewrite H in Hrun; simpl in Hrun; injection Hrun as <- <-.
    - by apply not_elem_of_empty in Hid.
    - apply elem_of_list_to_set, list_elem_of_fmap in Hid as (x & -> & _). by eexists. }
  split; [| apply zfill_idem].
  destruct (Nat.le_gt_cases 11 (String.length y)) as [Hle | Hlt].
  - by rewrite zfill_long.
  - by rewrite length_zfill_short.
Qed.

Lemma read_client_ids_width_witness :
  (11 ≤ String.length "00000000022")%nat ∧ PyStr.zfill 11 "00000000022" = "00000000022".
Proof.
  apply (read_client_ids_width "clients.xlsx" (MemFS.start scenario1)
           (mkDF [("Name", [CStr "Ann"; CStr "Bob"]);
                  ("ClientID", [CStr "00000000001"; CStr "00000000022"])])
           {[ "00000000001"; "00000000022" ]}).
  - vm_compute. reflexivity.
  - apply elem_of_union_r, elem_of_singleton. reflexivity.
Defined.

(** ** The derived output path *)

(** X20: for a path that ends in [.xlsx] and has no other occurrence of
    [.xlsx], the derived output path is the path with [_updated] put before
    that extension. *)
Theorem updated_path_inserts_suffix (stem : string) :
  (∀ i, (i < String.length stem)%nat →
        PyStr.startswith ".xlsx" (PyStr.drop i (stem +:+ ".xlsx")) = false) →
  updated_path (stem +:+ ".xlsx") = stem +:+ "_updated.xlsx".
Proof.
  intros Hocc. unfold updated_path, PyStr.replace.
  apply replace_go_suffix; [done | | done].
  rewrite str_length_app. simpl. lia.
Qed.

Lemma updated_path_inserts_suffix_witness :
  updated_path ("clients" +:+ ".xlsx") = "clients" +:+ "_updated.xlsx".
Proof.
  apply (updated_path_inserts_suffix "clients").
  intros i Hi. do 7 (destruct i as [|i]; [reflexivity |]). simpl in Hi. lia.
Defined.

Lemma replace_go_absent (old new : string) (s : string) (fuel : nat) :
  str_contains old s = false → PyStr.replace_go fuel old new s = s.
Proof.
  revert fuel. induction s as [|c s IH]; intros fuel Habs.
  - apply replace_go_empty.
  - destruct fuel as [|fuel]; [done |].
    cbn [str_contains] in Habs. apply orb_false_iff in Habs as [Hsw Hrest].
    cbn [PyStr.replace_go]. rewrite Hsw. f_equal. by apply IH.
Qed.

(** X5: a path in which [.xlsx] does not occur is its own derived output
    path: the report is then written at the path of the input table. *)
Theorem updated_path_without_xlsx (excel_path : string) :
  str_contains ".xlsx" excel_path = false → updated_path excel_path = excel_path.
Proof. intros Habs. unfold updated_path, PyStr.replace. by apply replace_go_absent. Qed.

Lemma updated_path_without_xlsx_witness : updated_path "clients.xls" = "clients.xls".
Proof. apply updated_path_without_xlsx. reflexivity. Defined.

(** ** The extractor's results *)

Lemma all_digits_app (a b : string) :
  all_digits (a +:+ b) = (all_digits a && all_digits b)%bool.
Proof.
  induction a as [|c a IH]; [done |].
  rewrite app_cons. cbn [all_digits]. rewrite IH. by rewrite andb_assoc.
Qed.

Lemma all_digits_zeros (n : nat) : all_digits (PyStr.zeros n) = true.
Proof. induction n as [|n IH]; [done |]. cbn [PyStr.zeros all_digits]. by rewrite IH. Qed.

Lemma all_digits_digit_run (s : string) : all_digits (PyStr.digit_run s) = true.
Proof.
  induction s as [|c s IH]; [done |]. cbn [PyStr.digit_run].
  destruct (PyStr.is_digit c) eqn:Hd; [| done].
  cbn [all_digits]. by rewrite Hd, IH.
Qed.

Lemma length_pad (width : nat) (s : string) :
  String.length (ExtractorSpec.pad width s) = Nat.max width (String.length s).
Proof.
  rewrite pad_unfold.
  destruct (Nat.ltb_spec (String.length s) width) as [Hlt | Hle].
  - rewrite str_length_app, length_zeros. lia.
  - lia.
Qed.

Lemma extract_number_shape (file_name id : string) :
  extract_number_from_filename file_name = Ok (Some id) →
  all_digits id = true
  ∧ (11 ≤ String.length id)%nat
  ∧ ∃ zeros, id = PyStr.zeros zeros +:+ PyStr.digit_run file_name.
Proof.
  rewrite extract_number_from_filename_refines. unfold ExtractorSpec.identifier.
  rewrite <- digit_run_leading.
  destruct (ExtractorSpec.starts_with_digit _); [| done]. intros [= <-].
  assert (PyStr.digit_run (ExtractorSpec.before_underscore file_name)
          = PyStr.digit_run file_name) as ->.
  { induction file_name as [|c name IH]; [done |]. cbn.
    destruct (Ascii.eqb_spec c "_"%char) as [-> | _]; [done |].
    cbn. destruct (PyStr.is_digit c); [by rewrite IH | done]. }
  split_and!.
  - rewrite pad_unfold. destruct (Nat.ltb _ _).
    + by rewrite all_digits_app, all_digits_zeros, all_digits_digit_run.
    + apply all_digits_digit_run.
  - rewrite length_pad. lia.
  - rewrite pad_unfold. destruct (Nat.ltb _ _); [by eexists |]. by exists 0%nat.
Qed.

(** X4: an identifier extracted from a file name consists of decimal
    digits only, has at least eleven characters, and ends with the leading
    digit run of the name. *)
Theorem extract_number_digits (file_name id : string) :
  extract_number_from_filename file_name = Ok (Some id) →
  all_digits id = true
  ∧ (11 ≤ String.length id)%nat
  ∧ ∃ zeros, id = PyStr.zeros zeros +:+ PyStr.digit_run file_name.
Proof. apply extract_number_shape. Qed.

Lemma extract_number_digits_witness :
  all_digits "00000000022" = true ∧ (11 ≤ String.length "00000000022")%nat.
Proof.
  destruct (extract_number_digits "22_b.jpg" "00000000022" eq_refl) as (H1 & H2 & _).
  exact (conj H1 H2).
Defined.

(** ** The report writer *)

(** The table that the report writer hands to [to_excel]. *)
Lemma update_excel_with_status_run {W : Type} `{!OS W} (excel_df : DataFrame)
    (matched_image_count : gmap string Z) (output_excel_path : string) (s : state W)
    (col : list cell) :
  df_getitem "ClientID" excel_df = Ok col →
  let report :=
    df_setitem "Status" (status_of matched_image_count <$> col)
      (df_setitem "Matched Images Count"
         ((λ x, CInt (count_of_cell matched_image_count x)) <$> col) excel_df) in
  update_excel_with_status excel_df matched_image_count output_excel_path s
    = match df_to_excel report output_excel_path (world s) with
      | (Ok _, w') =>
          (Ok (), mkState w' (trace s ++ [EvToExcel report output_excel_path;
                                        EvUi StSuccess ("Updated Excel file saved at "
                                                        +:+ output_excel_path)]))
      | (Raise e, w') =>
          (Raise e, mkState w' (trace s ++ [EvToExcel report output_excel_path]))
      end.
Proof.
  intros Hcol report. subst report.
  unfold update_excel_with_status. rewrite bind_unfold. unfold lift at 1. rewrite Hcol.
  rewrite bind_unfold. unfold lift at 1.
  rewrite df_getitem_setitem_ne by done. rewrite Hcol.
  rewrite bind_unfold. unfold to_excel. rewrite bind_unfold.
  unfold emit, command, st_success. cbn [world trace].
  fold (status_of matched_image_count).
  destruct (df_to_excel _ output_excel_path (world s)) as [[[]|e] w']; [| done].
  unfold emit. cbn [world trace]. by rewrite <- app_assoc.
Qed.

(** X6: on a table with a [ClientID] column the report writer makes one
    call of [to_excel], at the given path, with a table with two more
    columns, as long as the identifier column: in the row of a text
    identifier the count is the tally's value for it, zero when the tally
    has no such key, and the status is [Matched] for a positive count and
    [Mismatched] otherwise; every other column is as before.  The success
    message follows only when the call returns; an exception of the call
    leaves the function. *)
Theorem update_excel_with_status_writes {W : Type} `{!OS W} (excel_df : DataFrame)
    (matched_image_count : gmap string Z) (output_excel_path : string) (s : state W)
    (col : list cell) :
  df_getitem "ClientID" excel_df = Ok col →
  ∃ report counts statuses,
    df_getitem "Matched Images Count" report = Ok counts
    ∧ df_getitem "Status" report = Ok statuses
    ∧ length counts = length col
    ∧ length statuses = length col
    ∧ (∀ i id, col !! i = Some (CStr id) →
         counts !! i = Some (CInt (default 0%Z (matched_image_count !! id)))
         ∧ statuses !! i
           = Some (CStr (if (0 <? default 0%Z (matched_image_count !! id))%Z
                         then "Matched" else "Mismatched")))
    ∧ (∀ i n, col !! i = Some (CInt n) →
         counts !! i = Some (CInt 0) ∧ statuses !! i = Some (CStr "Mismatched"))
    ∧ (∀ name, name ≠ "Matched Images Count" → name ≠ "Status" →
               df_getitem name report = df_getitem name excel_df)
    ∧ update_excel_with_status excel_df matched_image_count output_excel_path s
      = match df_to_excel report output_excel_path (world s) with
        | (Ok _, w') =>
            (Ok (), mkState w' (trace s ++ [EvToExcel report output_excel_path;
                                          EvUi StSuccess ("Updated Excel file saved at "
                                                          +:+ output_excel_path)]))
        | (Raise e, w') =>
            (Raise e, mkState w' (trace s ++ [EvToExcel report output_excel_path]))
        end.
Proof.
  intros Hcol.
  exists (df_setitem "Status" (status_of matched_image_count <$> col)
            (df_setitem "Matched Images Count"
               ((λ x, CInt (count_of_cell matched_image_count x)) <$> col) excel_df)).
  exists ((λ x, CInt (count_of_cell matched_image_count x)) <$> col).
  exists (status_of matched_image_count <$> col).
  split_and!.
  - rewrite df_getitem_setitem_ne by done. apply df_getitem_setitem_eq.
  - apply df_getitem_setitem_eq.
  - apply length_fmap.
  - apply length_fmap.
  - intros i id Hi. rewrite !list_lookup_fmap, Hi. simpl.
    unfold status_of, count_of_cell, dict_get.
    by destruct (matched_image_count !! id).
  - intros i n Hi. by rewrite !list_lookup_fmap, Hi.
  - intros name H1 H2. by rewrite !df_getitem_setitem_ne.
  - by apply update_excel_with_status_run.
Qed.

Lemma update_excel_with_status_writes_witness :
  ∃ report,
    df_getitem "Matched Images Count" report = Ok [CInt 2; CInt 0]
    ∧ df_getitem "Status" report = Ok [CStr "Matched"; CStr "Mismatched"].
Proof.
  destruct (update_excel_with_status_writes
              (mkDF [("ClientID", [CStr "00000000001"; CStr "00000000022"])])
              {[ "00000000001" := 2%Z ]} "out.xlsx" (MemFS.start scenario1)
              [CStr "00000000001"; CStr "00000000022"] eq_refl)
    as (report & counts & statuses & Hc & Hs & Hlc & Hls & Hrows & _).
  destruct (Hrows 0%nat "00000000001" eq_refl) as [Hc0 Hs0].
  destruct (Hrows 1%nat "00000000022" eq_refl) as [Hc1 Hs1].
  exists report.
  destruct counts as [|c0 [|c1 [|c2 counts]]]; try discriminate Hlc.
  destruct statuses as [|s0 [|s1 [|s2 statuses]]]; try discriminate Hls.
  simpl in Hc0, Hc1, Hs0, Hs1.
  injection Hc0 as ->. injection Hc1 as ->. injection Hs0 as ->. injection Hs1 as ->.
  exact (conj Hc Hs).
Defined.

(** X7: without a [ClientID] column the report writer raises [KeyError]
    before anything is written or shown. *)
Theorem update_excel_with_status_missing_column {W : Type} `{!OS W} (excel_df : DataFrame)
    (matched_image_count : gmap string Z) (output_excel_path : string) (s : state W) :
  "ClientID" ∉ df_columns excel_df →
  update_excel_with_status excel_df matched_image_count output_excel_path s
    = (Raise (KeyError "ClientID"), s).
Proof.
  intros Hnot. unfold update_excel_with_status. rewrite bind_unfold. unfold lift at 1.
  unfold df_getitem. unfold df_columns in Hnot.
  destruct (assoc_get "ClientID" (df_cols excel_df)) eqn:Hget; [| done].
  destruct Hnot. apply assoc_get_is_Some. by eexists.
Qed.

Lemma update_excel_with_status_missing_column_witness :
  update_excel_with_status no_id_table ∅ "out.xlsx" (MemFS.start scenario1)
    = (Raise (KeyError "ClientID"), MemFS.start scenario1).
Proof.
  apply update_excel_with_status_missing_column.
  vm_compute. intros Hin. apply list_elem_of_In in Hin. simpl in Hin.
  destruct Hin as [H | [H | []]]; discriminate H.
Defined.

(** ** What a scan does *)

Lemma copies_app (evs evs' : list event) : copies (evs ++ evs') = copies evs ++ copies evs'.
Proof.
  induction evs as [|ev evs IH]; [done |].
  destruct ev; simpl; by rewrite ?IH.
Qed.

Lemma tables_written_app (evs evs' : list event) :
  tables_written (evs ++ evs') = tables_written evs ++ tables_written evs'.
Proof.
  induction evs as [|ev evs IH]; [done |].
  destruct ev; simpl; by rewrite ?IH.
Qed.

Lemma messages_app (evs evs' : list event) :
  messages (evs ++ evs') = messages evs ++ messages evs'.
Proof.
  induction evs as [|ev evs IH]; [done |].
  destruct ev; simpl; by rewrite ?IH.
Qed.

Section ScanEvents.
Context {W : Type} `{!OS W}.
Implicit Types (s : state W) (t : gmap string Z) (ids : gset string).

Lemma scan_entries_events ids (dir out : string) entries s m mm t s' :
  scan_entries ids dir out entries [] [] (gset_to_gmap 0%Z ids) s = (Ok (m, mm, t), s') →
  ∃ evs, trace s' = trace s ++ evs
         ∧ copies evs = (λ name, (os_path_join dir name, out)) <$> m
         ∧ tables_written evs = []
         ∧ messages evs = [].
Proof.
  intros Hrun.
  apply (scan_entries_rule ids dir out
           (λ _ m _ _ tr,
              ∃ evs, tr = trace s ++ evs
                     ∧ copies evs = (λ name, (os_path_join dir name, out)) <$> m
                     ∧ tables_written evs = []
                     ∧ messages evs = [])) in Hrun; [done | ..].
  - intros name rest m0 mm0 t0 tr (evs & -> & Hc & Ht & Hm).
    exists (evs ++ [EvIsFile (os_path_join dir name) false]).
    rewrite app_assoc, copies_app, tables_written_app, messages_app, Hc, Ht, Hm.
    simpl. by rewrite app_nil_r.
  - intros name rest m0 mm0 t0 tr number (evs & -> & Hc & Ht & Hm) _ _.
    exists (evs ++ [EvIsFile (os_path_join dir name) true]).
    rewrite app_assoc, copies_app, tables_written_app, messages_app, Hc, Ht, Hm.
    simpl. by rewrite app_nil_r.
  - intros name rest m0 mm0 t0 tr n v (evs & -> & Hc & Ht & Hm) _ _ _.
    exists (evs ++ [EvIsFile (os_path_join dir name) true;
                    EvCopy (os_path_join dir name) out]).
    rewrite <- !app_assoc. split; [done |].
    rewrite copies_app, tables_written_app, messages_app, Hc, Ht, Hm, fmap_app. done.
  - exists []. by rewrite app_nil_r.
Qed.

Lemma scan_entries_classes ids (dir out : string) entries s m mm t s' :
  scan_entries ids dir out entries [] [] (gset_to_gmap 0%Z ids) s = (Ok (m, mm, t), s') →
  Forall (λ name, ∃ id, extract_number_from_filename name = Ok (Some id) ∧ id ∈ ids) m
  ∧ Forall (λ name, ∀ id, extract_number_from_filename name = Ok (Some id) → id ∉ ids) mm.
Proof.
  intros Hrun.
  apply (scan_entries_rule ids dir out
           (λ _ m mm _ _,
              Forall (λ name, ∃ id, extract_number_from_filename name = Ok (Some id)
                                    ∧ id ∈ ids) m
              ∧ Forall (λ name, ∀ id, extract_number_from_filename name = Ok (Some id)
                                      → id ∉ ids) mm)) in Hrun; [done | ..].
  - done.
  - intros name rest m0 mm0 t0 tr number [Hm Hmm] Hext Hnot. split; [done |].
    apply Forall_app. split; [done |]. apply Forall_singleton.
    intros id Hid. apply Hnot. congruence.
  - intros name rest m0 mm0 t0 tr n v [Hm Hmm] Hext Hin _. split; [| done].
    apply Forall_app. split; [done |]. apply Forall_singleton. by exists n.
  - by split.
Qed.

Lemma scan_entries_order ids (dir out : string) entries s m mm t s' :
  scan_entries ids dir out entries [] [] (gset_to_gmap 0%Z ids) s = (Ok (m, mm, t), s') →
  sublist m entries ∧ sublist mm entries.
Proof.
  intros Hrun.
  apply (scan_entries_rule ids dir out
           (λ todo m mm _ _,
              ∃ seen, entries = seen ++ todo ∧ sublist m seen ∧ sublist mm seen)) in Hrun.
  - destruct Hrun as (seen & -> & Hm & Hmm). by rewrite app_nil_r.
  - intros name rest m0 mm0 t0 tr (seen & -> & Hm & Hmm).
    exists (seen ++ [name]). rewrite <- app_assoc.
    split_and!; [done | by apply sublist_inserts_r | by apply sublist_inserts_r].
  - intros name rest m0 mm0 t0 tr number (seen & -> & Hm & Hmm) _ _.
    exists (seen ++ [name]). rewrite <- app_assoc.
    split_and!; [done | by apply sublist_inserts_r | by apply sublist_app].
  - intros name rest m0 mm0 t0 tr n v (seen & -> & Hm & Hmm) _ _ _.
    exists (seen ++ [name]). rewrite <- app_assoc.
    split_and!; [done | by apply sublist_app | by apply sublist_inserts_r].
  - exists []. by split_and!.
Qed.

(** The events of any returning call of the matcher. *)
Lemma match_images_events ids (dir out : string) s m mm t s' :
  match_images_with_client_ids ids dir out s = (Ok (m, mm, t), s') →
  ∃ evs, trace s' = trace s ++ evs
         ∧ copies evs = (λ name, (os_path_join dir name, out)) <$> m
         ∧ tables_written evs = []
         ∧ dict_sum t = Z.of_nat (length (copies evs)).
Proof.
  intros [(Hmiss & -> & -> & -> & ->) | (_ & w1 & entries & _ & _ & Hscan)]%match_images_inv.
  - eexists. split; [done |]. done.
  - pose proof (scan_entries_tally _ _ _ _ _ _ _ _ _ Hscan) as (_ & _ & Hsum).
    apply scan_entries_events in Hscan as (evs & Htr & Hc & Ht & _).
    exists (EvMkdir out :: evs). split_and!.
    + rewrite Htr. simpl. by rewrite <- app_assoc.
    + done.
    + done.
    + simpl. by rewrite Hc, length_fmap.
Qed.

End ScanEvents.

(** X8: the files copied by a call of the matcher are exactly the matched
    files it returns, in the same order, each copied from the source
    directory into the output folder; the call writes no table. *)
Theorem match_images_copies_matched {W : Type} `{!OS W} (client_ids : gset string)
    (images_dir output_folder : string) (s : state W)
    (matched mismatched : list string) (tally : gmap string Z) :
  (match_images_with_client_ids client_ids images_dir output_folder s).1
    = Ok (matched, mismatched, tally) →
  ∃ evs,
    trace (match_images_with_client_ids client_ids images_dir output_folder s).2
      = trace s ++ evs
    ∧ copies evs = (λ name, (os_path_join images_dir name, output_folder)) <$> matched
    ∧ tables_written evs = [].
Proof.
  destruct (match_images_with_client_ids client_ids images_dir output_folder s)
    as [r s'] eqn:Hrun.
  simpl. intros ->.
  apply match_images_events in Hrun as (evs & Htr & Hc & Ht & _). by exists evs.
Qed.

Lemma match_images_copies_matched_witness :
  ∃ evs,
    copies evs = (λ name, (MemFS.join "imgs" name, "out")) <$> ["1_a.jpg"; "22_b.jpg"].
Proof.
  destruct (match_images_copies_matched {[ "00000000001"; "00000000022" ]} "imgs" "out"
              (MemFS.start scenario1) ["1_a.jpg"; "22_b.jpg"] ["99_c.jpg"]
              {[ "00000000001" := 1%Z; "00000000022" := 1%Z ]})
    as (evs & _ & Hc & _).
  - vm_compute. reflexivity.
  - exists evs. exact Hc.
Defined.

(** X9: every matched name returned by the matcher carries an identifier of
    the target set, and no mismatched name does. *)
Theorem match_images_classes {W : Type} `{!OS W} (client_ids : gset string)
    (images_dir output_folder : string) (s : state W)
    (matched mismatched : list string) (tally : gmap string Z) :
  (match_images_with_client_ids client_ids images_dir output_folder s).1
    = Ok (matched, mismatched, tally) →
  (∀ name, name ∈ matched →
           ∃ id, extract_number_from_filename name = Ok (Some id) ∧ id ∈ client_ids)
  ∧ (∀ name id, name ∈ mismatched →
                extract_number_from_filename name = Ok (Some id) → id ∉ client_ids).
Proof.
  destruct (match_images_with_client_ids client_ids images_dir output_folder s)
    as [r s'] eqn:Hrun.
  simpl. intros ->.
  apply match_images_inv in Hrun
    as [(_ & -> & -> & _) | (_ & w1 & entries & _ & _ & Hscan)].
  - split; [by intros ? ?%elem_of_nil | by intros ?? ?%elem_of_nil].
  - apply scan_entries_classes in Hscan as [Hm Hmm].
    rewrite Forall_forall in Hm. rewrite Forall_forall in Hmm.
    split; [done |]. intros name id Hin. by apply Hmm.
Qed.

Lemma match_images_classes_witness :
  ∃ id, extract_number_from_filename "22_b.jpg" = Ok (Some id)
        ∧ id ∈ ({[ "00000000001"; "00000000022" ]} : gset string).
Proof.
  destruct (match_images_classes {[ "00000000001"; "00000000022" ]} "imgs" "out"
              (MemFS.start scenario1) ["1_a.jpg"; "22_b.jpg"] ["99_c.jpg"]
              {[ "00000000001" := 1%Z; "00000000022" := 1%Z ]})
    as [Hm _].
  - vm_compute. reflexivity.
  - apply (Hm "22_b.jpg"). apply list_elem_of_In. simpl. tauto.
Defined.

(** X10: over an existing source directory, the matched names and the
    mismatched names are returned in the order of the directory listing:
    each sequence is a subsequence of the enumerated entries. *)
Theorem match_images_keeps_order {W : Type} `{!OS W} (client_ids : gset string)
    (images_dir output_folder : string) (s : state W)
    (matched mismatched : list string) (tally : gmap string Z) :
  os_path_exists images_dir (world s) = true →
  (match_images_with_client_ids client_ids images_dir output_folder s).1
    = Ok (matched, mismatched, tally) →
  ∃ w1 entries,
    path_mkdir output_folder (world s) = (Ok (), w1)
    ∧ os_listdir images_dir w1 = Ok entries
    ∧ sublist matched entries ∧ sublist mismatched entries.
Proof.
  intros Hex.
  destruct (match_images_with_client_ids client_ids images_dir output_folder s)
    as [r s'] eqn:Hrun.
  simpl. intros ->.
  apply match_images_inv in Hrun
    as [(Hmiss & _) | (_ & w1 & entries & Hmk & Hls & Hscan)]; [congruence |].
  apply scan_entries_order in Hscan as [Hm Hmm]. by exists w1, entries.
Qed.

Lemma match_images_keeps_order_witness :
  ∃ entries,
    MemFS.listdir "imgs" (MemFS.mkdir "out" scenario1).2 = Ok entries
    ∧ sublist ["1_a.jpg"; "22_b.jpg"] entries.
Proof.
  destruct (match_images_keeps_order {[ "00000000001"; "00000000022" ]} "imgs" "out"
              (MemFS.start scenario1) ["1_a.jpg"; "22_b.jpg"] ["99_c.jpg"]
              {[ "00000000001" := 1%Z; "00000000022" := 1%Z ]})
    as (w1 & entries & Hmk & Hls & Hm & _).
  - vm_compute. reflexivity.
  - vm_compute. reflexivity.
  - exists entries. split; [| exact Hm]. simpl in Hmk. rewrite Hmk. exact Hls.
Defined.

(** ** The merge and the fallback pass *)

Lemma merge_counts_lookup (items : list (string * Z)) (d d' : gmap string Z)
    (k : string) (c : Z) :
  merge_counts items d = Ok d' → NoDup items.*1 → (k, c) ∈ items →
  d' !! k = (λ v, (v + c)%Z) <$> d !! k.
Proof.
  revert d. induction items as [|[k0 c0] items IH]; intros d; simpl.
  - by intros _ _ ?%elem_of_nil.
  - destruct (dict_iadd d k0 c0) as [d1|] eqn:Hadd; [| done].
    apply dict_iadd_ok in Hadd as (v0 & Hv0 & ->).
    intros Hrest [Hk0 Hnd]%NoDup_cons [[= -> ->] | Hin]%elem_of_cons.
    + rewrite (merge_counts_other _ _ _ _ Hrest Hk0).
      by rewrite lookup_insert_eq, Hv0.
    + rewrite (IH _ Hrest Hnd Hin). rewrite lookup_insert_ne; [done |].
      intros ->. apply Hk0. apply list_elem_of_fmap. by exists (k, c).
Qed.

Lemma merge_counts_sum (items : list (string * Z)) (d d' : gmap string Z) :
  merge_counts items d = Ok d' →
  dict_sum d' = (dict_sum d + foldr (λ kc acc, kc.2 + acc) 0 items)%Z.
Proof.
  revert d. induction items as [|[k0 c0] items IH]; intros d; simpl.
  - intros [= <-]. lia.
  - destruct (dict_iadd d k0 c0) as [d1|] eqn:Hadd; [| done].
    apply dict_iadd_ok in Hadd as (v0 & Hv0 & ->).
    intros Hrest. rewrite (IH _ Hrest), (dict_sum_insert _ _ v0) by done. lia.
Qed.

Lemma dict_sum_to_list (d : gmap string Z) :
  dict_sum d = foldr (λ kc acc, (kc.2 + acc)%Z) 0%Z (map_to_list d).
Proof.
  unfold dict_sum. rewrite map_fold_foldr.
  induction (map_to_list d) as [|[k v] l IH]; simpl; [done |]. by rewrite IH.
Qed.

Lemma merge_counts_effect (fallback primary merged : gmap string Z) :
  merge_counts (map_to_list fallback) primary = Ok merged →
  (∀ id, merged !! id = (λ n, (n + default 0 (fallback !! id))%Z) <$> primary !! id)
  ∧ dom merged = dom primary
  ∧ dict_sum merged = (dict_sum primary + dict_sum fallback)%Z.
Proof.
  intros Hmerge.
  assert (∀ id, merged !! id
                = (λ n, (n + default 0 (fallback !! id))%Z) <$> primary !! id) as Hlook.
  { intros id. destruct (fallback !! id) as [c|] eqn:Hc; simpl.
    - apply (merge_counts_lookup _ _ _ _ _ Hmerge); [apply NoDup_fst_map_to_list |].
      by apply elem_of_map_to_list.
    - rewrite (merge_counts_other _ _ _ id Hmerge).
      + destruct (primary !! id); simpl; [f_equal; lia | done].
      + rewrite map_to_list_keys. by apply not_elem_of_dom. }
  split_and!; [done | |].
  - apply set_eq. intros id. rewrite !elem_of_dom, Hlook.
    destruct (primary !! id); simpl; split; intros [? ?]; by eexists.
  - rewrite (merge_counts_sum _ _ _ Hmerge). by rewrite <- dict_sum_to_list.
Qed.

(** X11: a merge that returns has added to every count of the primary
    tally the count the fallback tally holds for the same identifier, and
    nothing else; the key set is unchanged and the totals add up. *)
Theorem merge_counts_adds (fallback primary merged : gmap string Z) :
  merge_counts (map_to_list fallback) primary = Ok merged →
  (∀ id, merged !! id = (λ n, (n + default 0 (fallback !! id))%Z) <$> primary !! id)
  ∧ dom merged = dom primary
  ∧ dict_sum merged = (dict_sum primary + dict_sum fallback)%Z.
Proof. apply merge_counts_effect. Qed.

Lemma merge_counts_adds_witness :
  dict_sum ({[ "00000000001" := 1%Z; "00000000022" := 1%Z ]} : gmap string Z)
  = (dict_sum ({[ "00000000001" := 0%Z; "00000000022" := 1%Z ]} : gmap string Z)
     + dict_sum ({[ "00000000001" := 1%Z ]} : gmap string Z))%Z.
Proof.
  destruct (merge_counts_adds {[ "00000000001" := 1%Z ]}
              {[ "00000000001" := 0%Z; "00000000022" := 1%Z ]}
              {[ "00000000001" := 1%Z; "00000000022" := 1%Z ]}) as (_ & _ & Hsum).
  - vm_compute. reflexivity.
  - exact Hsum.
Defined.

Section FallbackRun.
Context {W : Type} `{!OS W}.
Implicit Types (s : state W) (t : gmap string Z) (ids : gset string).

(** The fallback pass, once the unmatched identifiers are known. *)
Lemma fallback_pass_unfold ids t (out : string) (fallback : option string) s
    (u : gset string) :
  unmatched_client_ids ids t = Ok u →
  fallback_pass ids t out fallback s
    = match path_given fallback with
      | Some dir =>
          if bool_decide (u = ∅) then (Ok t, s)
          else
            match match_images_with_client_ids u dir out
                    (mkState (world s)
                       (trace s ++ [EvUi StWrite
                                      "Processing fallback directory for unmatched client IDs..."]))
            with
            | (Ok (_, _, fb), s2) => (merge_counts (map_to_list fb) t, s2)
            | (Raise e, s2) => (Raise e, s2)
            end
      | None => (Ok t, s)
      end.
Proof.
  intros Hu. unfold fallback_pass. rewrite bind_unfold. unfold lift at 1. rewrite Hu.
  destruct (path_given fallback) as [dir|]; [| done].
  destruct (bool_decide (u = ∅)); cbn [negb]; [done |].
  rewrite bind_unfold. unfold st_write, emit. rewrite bind_unfold.
  by destruct (match_images_with_client_ids u dir out _) as [[[[fm fmm] fb]|e] s2].
Qed.

(** The events and the counts of a returning fallback pass. *)
Lemma fallback_pass_events ids t (out : string) (fallback : option string) s merged s' :
  fallback_pass ids t out fallback s = (Ok merged, s') →
  ∃ u fm evs,
    unmatched_client_ids ids t = Ok u
    ∧ trace s' = trace s ++ evs
    ∧ tables_written evs = []
    ∧ (∀ src dst, (src, dst) ∈ copies evs → dst = out)
    ∧ length (copies evs) = length fm
    ∧ (∀ id, id ∈ u → merged !! id = Some (matches_of id fm))
    ∧ (∀ id, id ∉ u → merged !! id = t !! id)
    ∧ dict_sum merged = (dict_sum t + Z.of_nat (length (copies evs)))%Z.
Proof.
  intros Hrun.
  destruct (unmatched_client_ids ids t) as [u|e] eqn:Hu.
  2: { unfold fallback_pass in Hrun. rewrite bind_unfold in Hrun.
       unfold lift in Hrun at 1. by rewrite Hu in Hrun. }
  rewrite (fallback_pass_unfold _ _ _ _ _ _ Hu) in Hrun.
  destruct (unmatched_client_ids_ok _ _ _ Hu) as [_ Hzero].
  assert (∀ id, id ∈ u → t !! id = Some (matches_of id [])) as Hnone.
  { intros id [_ Hz]%Hzero. done. }
  exists u.
  assert ((Ok t, s) = (Ok merged, s') →
          ∃ fm evs,
            Ok u = Ok u ∧ trace s' = trace s ++ evs ∧ tables_written evs = []
            ∧ (∀ src dst, (src, dst) ∈ copies evs → dst = out)
            ∧ length (copies evs) = length fm
            ∧ (∀ id, id ∈ u → merged !! id = Some (matches_of id fm))
            ∧ (∀ id, id ∉ u → merged !! id = t !! id)
            ∧ dict_sum merged = (dict_sum t + Z.of_nat (length (copies evs)))%Z) as Hnoop.
  { intros [= <- <-]. exists [], []. rewrite app_nil_r.
    split_and!; try done; [by intros ?? ?%elem_of_nil | simpl; lia]. }
  destruct (path_given fallback) as [dir|]; [| by apply Hnoop].
  destruct (bool_decide (u = ∅)); [by apply Hnoop |]. clear Hnoop.
  destruct (match_images_with_client_ids u dir out _) as [[[[fm fmm] fb]|e] s2] eqn:Hscan;
    [| done].
  injection Hrun as Hmerge <-.
  destruct (merge_counts_effect _ _ _ Hmerge) as (Hlook & _ & Hsum).
  pose proof (match_images_events _ _ _ _ _ _ _ _ Hscan) as (evs & Htr & Hc & Ht & Hfb).
  pose proof (match_images_dom _ _ _ _ _ _ _ _ Hscan) as [Hsub _].
  exists fm, (EvUi StWrite "Processing fallback directory for unmatched client IDs..."
              :: evs).
  cbn [trace] in Htr. rewrite <- app_assoc in Htr.
  split_and!; [done | done | done | | | | |].
  - cbn [copies]. rewrite Hc. intros src dst (name & [= -> ->] & _)%list_elem_of_fmap. done.
  - cbn [copies]. by rewrite Hc, length_fmap.
  - intros id Hid. rewrite Hlook.
    apply match_images_inv in Hscan
      as [(_ & -> & _ & -> & _) | (_ & w1 & entries & _ & _ & Hscan)].
    + rewrite lookup_empty. simpl. rewrite (Hnone id Hid). simpl. f_equal; lia.
    + apply scan_entries_tally in Hscan as (_ & Hcnt & _).
      rewrite (Hcnt id Hid). destruct (Hzero id) as [[_ ->] _]; [done |]. done.
  - intros id Hid. rewrite Hlook.
    assert (fb !! id = None) as -> by (apply not_elem_of_dom; intros Hin; by apply Hid, Hsub).
    destruct (t !! id); simpl; [f_equal; lia | done].
  - rewrite Hsum, Hfb. cbn [copies]. done.
Qed.

End FallbackRun.

(** X12: when every client identifier is a key of the primary tally, the
    fallback pass does nothing and returns the primary tally as it is if
    the fallback directory is not given ([None] or the empty string), or if
    no identifier has a zero count. *)
Theorem fallback_pass_noop {W : Type} `{!OS W} (client_ids : gset string)
    (primary : gmap string Z) (output_folder : string) (fallback_images_dir : option string)
    (s : state W) :
  client_ids ⊆ dom primary →
  fallback_images_dir = None ∨ fallback_images_dir = Some EmptyString
  ∨ (∀ id, id ∈ client_ids → primary !! id ≠ Some 0%Z) →
  fallback_pass client_ids primary output_folder fallback_images_dir s = (Ok primary, s).
Proof.
  intros Hsub Hcase.
  destruct (unmatched_client_ids_total _ _ Hsub) as [u Hu].
  rewrite (fallback_pass_unfold _ _ _ _ _ _ Hu).
  destruct Hcase as [-> | [-> | Hnz]]; [done | done |].
  destruct (path_given fallback_images_dir); [| done].
  rewrite bool_decide_eq_true_2; [done |].
  apply set_eq. intros id. split; [| by intros ?%not_elem_of_empty].
  intros [Hin Hz]%(unmatched_client_ids_ok _ _ _ Hu). by destruct (Hnz id Hin).
Qed.

Lemma fallback_pass_noop_witness :
  fallback_pass {[ "00000000001"; "00000000022" ]}
    {[ "00000000001" := 0%Z; "00000000022" := 1%Z ]} "out" (Some EmptyString)
    (MemFS.start scenario4)
  = (Ok {[ "00000000001" := 0%Z; "00000000022" := 1%Z ]}, MemFS.start scenario4).
Proof.
  apply fallback_pass_noop.
  - intros id Hid. apply elem_of_dom.
    apply elem_of_union in Hid as [->%elem_of_singleton | ->%elem_of_singleton];
      by eexists.
  - right. left. reflexivity.
Defined.

(** X13: a fallback directory that does not exist is not fatal: the pass
    shows that it is being processed, then that it does not exist, and
    returns the primary tally unchanged, the world untouched. *)
Theorem fallback_pass_missing_dir {W : Type} `{!OS W} (client_ids : gset string)
    (primary : gmap string Z) (output_folder fallback_dir : string) (s : state W)
    (id : string) :
  client_ids ⊆ dom primary →
  id ∈ client_ids → primary !! id = Some 0%Z →
  fallback_dir ≠ EmptyString →
  os_path_exists fallback_dir (world s) = false →
  fallback_pass client_ids primary output_folder (Some fallback_dir) s
    = (Ok primary,
       mkState (world s)
         (trace s ++ [EvUi StWrite "Processing fallback directory for unmatched client IDs...";
                      EvUi StError ("The directory " +:+ fallback_dir
                                    +:+ " does not exist. Please check the path.")])).
Proof.
  intros Hsub Hin Hz Hne Hmiss.
  destruct (unmatched_client_ids_total _ _ Hsub) as [u Hu].
  rewrite (fallback_pass_unfold _ _ _ _ _ _ Hu).
  assert (path_given (Some fallback_dir) = Some fallback_dir) as ->.
  { by destruct fallback_dir. }
  rewrite bool_decide_eq_false_2.
  - rewrite match_images_missing by done. cbn [world trace].
    rewrite map_to_list_empty. simpl. by rewrite <- app_assoc.
  - intros ->. apply (not_elem_of_empty (C:=gset string) id).
    by apply (unmatched_client_ids_ok _ _ _ Hu).
Qed.

Lemma fallback_pass_missing_dir_witness :
  (MemFS.observe
     (fallback_pass {[ "00000000001"; "00000000022" ]}
        {[ "00000000001" := 0%Z; "00000000022" := 1%Z ]} "out" (Some "nowhere")
        (MemFS.start scenario4))).1
  = Ok {[ "00000000001" := 0%Z; "00000000022" := 1%Z ]}.
Proof.
  unfold MemFS.observe.
  rewrite (fallback_pass_missing_dir {[ "00000000001"; "00000000022" ]}
             {[ "00000000001" := 0%Z; "00000000022" := 1%Z ]} "out" "nowhere"
             (MemFS.start scenario4) "00000000001").
  - reflexivity.
  - intros id Hid. apply elem_of_dom.
    apply elem_of_union in Hid as [->%elem_of_singleton | ->%elem_of_singleton];
      by eexists.
  - apply elem_of_union_l, elem_of_singleton. reflexivity.
  - vm_compute. reflexivity.
  - discriminate.
  - vm_compute. reflexivity.
Defined.

(** X14: when the second scan, run over the unmatched identifiers after
    the message that the fallback directory is being processed, returns
    its matched names, the fallback pass returns a merged tally in which
    every unmatched identifier has as count the number of those matched
    names that carry it, and every other count is the primary one; the
    files copied are those matched names, and no table is written. *)
Theorem fallback_pass_counts {W : Type} `{!OS W} (client_ids : gset string)
    (primary : gmap string Z) (output_folder fallback_dir : string) (s : state W)
    (u : gset string) (fmatched fmismatched : list string) (fallback : gmap string Z) :
  unmatched_client_ids client_ids primary = Ok u →
  u ≠ ∅ →
  fallback_dir ≠ EmptyString →
  (match_images_with_client_ids u fallback_dir output_folder
     (mkState (world s)
        (trace s ++ [EvUi StWrite
                       "Processing fallback directory for unmatched client IDs..."]))).1
    = Ok (fmatched, fmismatched, fallback) →
  ∃ merged evs,
    (fallback_pass client_ids primary output_folder (Some fallback_dir) s).1 = Ok merged
    ∧ (∀ id, id ∈ u → merged !! id = Some (matches_of id fmatched))
    ∧ (∀ id, id ∉ u → merged !! id = primary !! id)
    ∧ trace (fallback_pass client_ids primary output_folder (Some fallback_dir) s).2
      = trace s ++ EvUi StWrite "Processing fallback directory for unmatched client IDs..."
                :: evs
    ∧ copies evs = (λ name, (os_path_join fallback_dir name, output_folder)) <$> fmatched
    ∧ tables_written evs = [].
Proof.
  intros Hu Hne Hdir.
  rewrite (fallback_pass_unfold _ _ _ _ _ _ Hu).
  assert (path_given (Some fallback_dir) = Some fallback_dir) as ->
    by (by destruct fallback_dir).
  rewrite bool_decide_eq_false_2 by done.
  destruct (match_images_with_client_ids u fallback_dir output_folder _)
    as [r s2] eqn:Hscan.
  simpl. intros ->.
  destruct (unmatched_client_ids_ok _ _ _ Hu) as [Hkeys Hzero].
  pose proof (match_images_dom _ _ _ _ _ _ _ _ Hscan) as [Hsub _].
  destruct (merge_counts_total (map_to_list fallback) primary) as [merged Hmerge].
  { intros k Hk%map_to_list_keys. apply elem_of_dom, Hkeys.
    by apply (Hzero k), Hsub. }
  destruct (merge_counts_effect _ _ _ Hmerge) as (Hlook & _ & _).
  pose proof (match_images_events _ _ _ _ _ _ _ _ Hscan) as (evs & Htr & Hc & Ht & _).
  exists merged, evs. rewrite Hmerge. simpl. split_and!; [done | | | | done | done].
  - intros id Hid. rewrite Hlook.
    destruct (Hzero id) as [[_ ->] _]; [done |]. simpl.
    apply match_images_inv in Hscan
      as [(_ & -> & _ & -> & _) | (_ & w1 & entries & _ & _ & Hscan)].
    + by rewrite lookup_empty.
    + apply scan_entries_tally in Hscan as (_ & Hcnt & _). by rewrite (Hcnt id Hid).
  - intros id Hid. rewrite Hlook.
    assert (fallback !! id = None) as ->
      by (apply not_elem_of_dom; intros Hin; by apply Hid, Hsub).
    destruct (primary !! id); simpl; [f_equal; lia | done].
  - rewrite Htr. cbn [trace]. by rewrite <- app_assoc.
Qed.

Lemma fallback_pass_counts_witness :
  ∃ merged,
    (fallback_pass {[ "00000000001"; "00000000022" ]}
       {[ "00000000001" := 0%Z; "00000000022" := 1%Z ]} "out" (Some "more")
       (MemFS.start scenario4)).1 = Ok merged
    ∧ merged !! "00000000001" = Some 1%Z
    ∧ merged !! "00000000022" = Some 1%Z.
Proof.
  destruct (fallback_pass_counts {[ "00000000001"; "00000000022" ]}
              {[ "00000000001" := 0%Z; "00000000022" := 1%Z ]} "out" "more"
              (MemFS.start scenario4) {[ "00000000001" ]}
              ["1_x.jpg"] ["22_y.jpg"] {[ "00000000001" := 1%Z ]})
    as (merged & evs & Hrun & Hin & Hout & _).
  - vm_compute. reflexivity.
  - apply non_empty_singleton_L.
  - discriminate.
  - vm_compute. reflexivity.
  - exists merged. split; [exact Hrun |]. split.
    + apply (Hin "00000000001"). apply elem_of_singleton. reflexivity.
    + rewrite (Hout "00000000022"); [reflexivity |].
      intros Heq%elem_of_singleton. discriminate Heq.
Defined.

(** ** A whole run that returns *)

Section RunReturns.
Context {W : Type} `{!OS W}.
Implicit Types (s : state W) (t : gmap string Z) (ids : gset string).

Lemma update_excel_with_status_ok_inv (df : DataFrame) t (path : string) s s' :
  update_excel_with_status df t path s = (Ok (), s') →
  ∃ report,
    trace s' = trace s ++ [EvToExcel report path;
                           EvUi StSuccess ("Updated Excel file saved at " +:+ path)].
Proof.
  destruct (df_getitem "ClientID" df) as [col|e] eqn:Hcol.
  - rewrite (update_excel_with_status_run _ _ _ _ _ Hcol). cbv zeta.
    destruct (df_to_excel _ path (world s)) as [[[]|e] w']; [| done].
    intros [= <-]. by eexists.
  - unfold update_excel_with_status. rewrite bind_unfold. unfold lift at 1.
    by rewrite Hcol.
Qed.

(** The two ways for [process_images] to return. *)
Lemma process_images_ok_cases (excel_path images_dir output_folder : string)
    (fallback_images_dir : option string) s (r : option string) s' :
  process_images excel_path images_dir output_folder fallback_images_dir s = (Ok r, s') →
  (r = None
   ∧ ∃ evs, s' = mkState (world s)
                   (trace s ++ evs ++ [EvUi StError "No valid client IDs found."])
            ∧ copies evs = [] ∧ tables_written evs = [])
  ∨ (r = Some (updated_path excel_path)
     ∧ ∃ evs report msg1 msg2,
         trace s' = trace s ++ evs
                      ++ [EvToExcel report (updated_path excel_path);
                          EvUi StSuccess ("Updated Excel file saved at "
                                          +:+ updated_path excel_path);
                          EvUi StWrite msg1; EvUi StWrite msg2;
                          EvUi StWrite ("Total matched images: "
                                        +:+ pretty (Z.of_nat (length (copies evs))))]
         ∧ tables_written evs = []
         ∧ (∀ src dst, (src, dst) ∈ copies evs → dst = output_folder)).
Proof.
  unfold process_images. rewrite bind_unfold.
  assert (∀ s1 evs,
            s1 = mkState (world s) (trace s ++ evs) →
            copies evs = [] → tables_written evs = [] →
            (st_error "No valid client IDs found." ≫= λ _, mret None) s1 = (Ok r, s') →
            r = None
            ∧ ∃ evs, s' = mkState (world s)
                            (trace s ++ evs ++ [EvUi StError "No valid client IDs found."])
                     ∧ copies evs = [] ∧ tables_written evs = []) as Habort.
  { intros s1 evs -> Hc Ht. rewrite bind_unfold. unfold st_error, emit. cbn.
    intros [= <- <-]. split; [done |]. exists evs. by rewrite <- app_assoc. }
  destruct (read_client_ids_cases excel_path s) as [[msg ->] | (df & col & _ & _ & ->)].
  - cbn [df_empty df_new df_cols orb]. intros Hrun. left.
    by apply (Habort _ [EvUi StError msg]) in Hrun.
  - destruct (df_empty _ || bool_decide (_ = ∅))%bool.
    + intros Hrun. left. apply (Habort _ []) in Hrun; [done | | done | done].
      rewrite app_nil_r. by destruct s.
    + clear Habort. rewrite bind_unfold.
      destruct (match_images_with_client_ids _ images_dir output_folder s)
        as [[[[m mm] t]|e] s2] eqn:Hscan; [| done].
      rewrite bind_unfold.
      destruct (fallback_pass _ t output_folder fallback_images_dir s2)
        as [[t'|e] s3] eqn:Hfb; [| done].
      rewrite bind_unfold.
      destruct (update_excel_with_status _ t' (updated_path excel_path) s3)
        as [[[]|e] s4] eqn:Hup; [| done].
      rewrite !bind_unfold. unfold st_write, emit. cbn [world trace].
      intros [= <- <-]. right. split; [done |].
      apply match_images_events in Hscan as (evs1 & Htr1 & Hc1 & Ht1 & Hsum1).
      apply fallback_pass_events in Hfb
        as (u & fm & evs2 & _ & Htr2 & Ht2 & Hdst2 & _ & _ & _ & Hsum2).
      apply update_excel_with_status_ok_inv in Hup as [report Htr4].
      exists (evs1 ++ evs2), report. eexists _, _. split_and!.
      * cbn [trace]. rewrite Htr4, Htr2, Htr1, <- !app_assoc. simpl.
        rewrite copies_app, length_app, Hsum2, Hsum1, Nat2Z.inj_add. done.
      * by rewrite tables_written_app, Ht1, Ht2.
      * intros src dst. rewrite copies_app, elem_of_app, Hc1.
        intros [(name & [= -> ->] & _)%list_elem_of_fmap | Hin]; [done |].
        by apply (Hdst2 src).
Qed.

End RunReturns.

(** X15: a run that returns a path returns the derived path, wrote exactly
    one table, at that path, copied files into the output folder only, and
    ended with the message giving as total the number of files copied
    during the run. *)
Theorem process_images_reports_copies {W : Type} `{!OS W}
    (excel_path images_dir output_folder : string) (fallback_images_dir : option string)
    (s : state W) (path : string) :
  (process_images excel_path images_dir output_folder fallback_images_dir s).1
    = Ok (Some path) →
  path = updated_path excel_path
  ∧ ∃ evs,
      trace (process_images excel_path images_dir output_folder fallback_images_dir s).2
        = trace s ++ evs
      ∧ tables_written evs = [path]
      ∧ (∀ src dst, (src, dst) ∈ copies evs → dst = output_folder)
      ∧ last (messages evs)
        = Some (StWrite, "Total matched images: "
                         +:+ pretty (Z.of_nat (length (copies evs)))).
Proof.
  destruct (process_images excel_path images_dir output_folder fallback_images_dir s)
    as [r s'] eqn:Hrun.
  simpl. intros ->.
  apply process_images_ok_cases in Hrun
    as [[[=] _] | [[= ->] (evs & report & msg1 & msg2 & Htr & Ht & Hdst)]].
  split; [done |]. eexists. split; [exact Htr |].
  rewrite tables_written_app, copies_app, messages_app, Ht. simpl.
  rewrite !app_nil_r. split_and!; [done | done |].
  by rewrite last_app.
Qed.

Lemma process_images_reports_copies_witness :
  "clients_updated.xlsx" = updated_path "clients.xlsx".
Proof.
  destruct (process_images_reports_copies "clients.xlsx" "imgs" "out" (Some "more")
              (MemFS.start scenario4) "clients_updated.xlsx") as [Hpath _].
  - vm_compute. reflexivity.
  - exact Hpath.
Defined.

(** X16: a run that returns without a path left the world as it was: it
    copied nothing, wrote no table, and its last message says that no
    client identifier was found. *)
Theorem process_images_abort_is_clean {W : Type} `{!OS W}
    (excel_path images_dir output_folder : string) (fallback_images_dir : option string)
    (s : state W) :
  (process_images excel_path images_dir output_folder fallback_images_dir s).1 = Ok None →
  world (process_images excel_path images_dir output_folder fallback_images_dir s).2
    = world s
  ∧ ∃ evs,
      trace (process_images excel_path images_dir output_folder fallback_images_dir s).2
        = trace s ++ evs
      ∧ copies evs = [] ∧ tables_written evs = []
      ∧ last (messages evs) = Some (StError, "No valid client IDs found.").
Proof.
  destruct (process_images excel_path images_dir output_folder fallback_images_dir s)
    as [r s'] eqn:Hrun.
  simpl. intros ->.
  apply process_images_ok_cases in Hrun as [[_ (evs & -> & Hc & Ht)] | [[=] _]].
  split; [done |]. eexists. split; [done |].
  rewrite copies_app, tables_written_app, messages_app, Hc, Ht. simpl.
  split_and!; [done | done |]. by rewrite last_app.
Qed.

Lemma process_images_abort_is_clean_witness :
  world (process_images "bad.xlsx" "imgs" "out" None (MemFS.start scenario3)).2 = scenario3.
Proof.
  destruct (process_images_abort_is_clean "bad.xlsx" "imgs" "out" None
              (MemFS.start scenario3)) as [Hw _].
  - vm_compute. reflexivity.
  - exact Hw.
Defined.

(** X17: a table that has the [ClientID] column but no row yields no
    identifier: the run shows that none was found and returns without a
    path, before looking at any directory. *)
Theorem process_images_empty_table {W : Type} `{!OS W}
    (excel_path images_dir output_folder : string) (fallback_images_dir : option string)
    (s : state W) (df : DataFrame) :
  pd_read_excel excel_path (world s) = Ok df →
  df_getitem "ClientID" df = Ok [] →
  process_images excel_path images_dir output_folder fallback_images_dir s
    = (Ok None,
       mkState (world s) (trace s ++ [EvUi StError "No valid client IDs found."])).
Proof.
  intros Hread Hcol. unfold process_images.
  rewrite bind_unfold, (read_client_ids_success _ _ _ _ Hread Hcol).
  destruct (df_empty _ || bool_decide (_ = ∅))%bool eqn:Hcond.
  - rewrite bind_unfold. unfold st_error, emit. done.
  - apply orb_false_iff in Hcond as [_ Hids].
    apply bool_decide_eq_false in Hids. by destruct Hids.
Qed.

Lemma process_images_empty_table_witness :
  MemFS.observe
    (process_images "empty.xlsx" "imgs" "out" None
       (MemFS.start (MemFS.of_list [("empty.xlsx", MemFS.Sheet (mkDF [("ClientID", [])]))])))
  = (Ok None, [EvUi StError "No valid client IDs found."]).
Proof.
  unfold MemFS.observe.
  rewrite (process_images_empty_table "empty.xlsx" "imgs" "out" None
             (MemFS.start (MemFS.of_list [("empty.xlsx", MemFS.Sheet (mkDF [("ClientID", [])]))]))
             (mkDF [("ClientID", [])])).
  - reflexivity.
  - vm_compute. reflexivity.
  - reflexivity.
Defined.


(** ** The join key *)

Lemma before_underscore_digits (d rest : string) :
  all_digits d = true →
  ExtractorSpec.before_underscore (d +:+ String "_"%char rest) = d.
Proof.
  induction d as [|c d IH]; intros Hd.
  - cbn. done.
  - cbn [all_digits] in Hd. apply andb_true_iff in Hd as [Hc Hd].
    rewrite app_cons. cbn [ExtractorSpec.before_underscore].
    destruct (Ascii.eqb_spec c "_"%char) as [-> | _]; [by vm_compute in Hc |].
    by rewrite IH.
Qed.

Lemma digit_run_all_digits (d : string) : all_digits d = true → PyStr.digit_run d = d.
Proof.
  induction d as [|c d IH]; [done |]. cbn [all_digits PyStr.digit_run].
  intros [-> Hd]%andb_true_iff. by rewrite IH.
Qed.

(** X18: the two normalisations agree: a file named by a non-empty digit
    string, an underscore and anything else gets as identifier the very
    string to which the loader normalises a cell holding that digit
    string. *)
Theorem extract_agrees_with_normalize (digits rest : string) :
  all_digits digits = true →
  digits ≠ EmptyString →
  extract_number_from_filename (digits +:+ String "_"%char rest)
    = Ok (Some (py_str (normalize_id (CStr digits)))).
Proof.
  intros Hd Hne. rewrite extract_number_from_filename_refines.
  unfold ExtractorSpec.identifier. rewrite <- digit_run_leading.
  rewrite (before_underscore_digits _ _ Hd).
  rewrite (digit_run_all_digits _ Hd).
  destruct digits as [|c digits]; [done |].
  cbn [all_digits] in Hd. apply andb_true_iff in Hd as [Hc Hd].
  cbn [ExtractorSpec.starts_with_digit]. rewrite <- is_digit_decimal, Hc. do 2 f_equal.
  cbn [normalize_id py_str].
  rewrite <- (digit_run_all_digits (String c digits)) at 2
    by (cbn [all_digits]; by rewrite Hc, Hd).
  rewrite zfill_digit_run.
  by rewrite digit_run_all_digits by (cbn [all_digits]; by rewrite Hc, Hd).
Qed.

Lemma extract_agrees_with_normalize_witness :
  extract_number_from_filename ("22" +:+ String "_"%char "b.jpg")
    = Ok (Some (py_str (normalize_id (CStr "22")))).
Proof. apply extract_agrees_with_normalize; [reflexivity | discriminate]. Defined.

Lemma matches_of_non_digits (id : string) (m : list string) :
  all_digits id = false → matches_of id m = 0%Z.
Proof.
  intros Hid. unfold matches_of.
  induction m as [|name m IH]; [done |].
  rewrite filter_cons. destruct (decide (id_of name = Some id)) as [Heq | _]; [| done].
  unfold id_of in Heq.
  destruct (extract_number_from_filename name) as [number|] eqn:Hext; [| done].
  subst number. apply extract_number_shape in Hext as [Hd _]. congruence.
Qed.

(** X19: an identifier of the target set that has a character other than
    a decimal digit (a sign, a decimal point, a letter) is matched by no
    file: over an existing source directory its count stays zero. *)
Theorem match_images_non_numeric_id {W : Type} `{!OS W} (client_ids : gset string)
    (images_dir output_folder : string) (s : state W)
    (matched mismatched : list string) (tally : gmap string Z) (id : string) :
  (match_images_with_client_ids client_ids images_dir output_folder s).1
    = Ok (matched, mismatched, tally) →
  os_path_exists images_dir (world s) = true →
  id ∈ client_ids →
  all_digits id = false →
  tally !! id = Some 0%Z.
Proof.
  destruct (match_images_with_client_ids client_ids images_dir output_folder s)
    as [r s'] eqn:Hrun.
  simpl. intros -> Hex Hin Hid.
  apply match_images_inv in Hrun
    as [(Hmiss & _) | (_ & w1 & entries & _ & _ & Hscan)]; [congruence |].
  apply scan_entries_tally in Hscan as (_ & Hcnt & _).
  rewrite (Hcnt id Hin). by rewrite matches_of_non_digits.
Qed.

Lemma match_images_non_numeric_id_witness :
  ({[ "000000001.0" := 0%Z; "00000000022" := 1%Z ]} : gmap string Z) !! "000000001.0"
  = Some 0%Z.
Proof.
  apply (match_images_non_numeric_id {[ "000000001.0"; "00000000022" ]} "imgs" "out"
           (MemFS.start scenario1) ["22_b.jpg"] ["1_a.jpg"; "99_c.jpg"]
           {[ "000000001.0" := 0%Z; "00000000022" := 1%Z ]}).
  - vm_compute. reflexivity.
  - vm_compute. reflexivity.
  - apply elem_of_union_l, elem_of_singleton. reflexivity.
  - reflexivity.
Defined.
